(** * NiftyMIC: the ADMM reconstruction solver and the 2D resampling routine

    A shallow embedding of

    - [src/py/volumetricreconstruction/reconstruction/solver/ADMMSolver.py]
      (class [ADMMSolver]), and
    - [src/GettingStarted/MyImageProcessingFunctions.py] (function
      [resampling]),

    together with the properties the specification states about them.

    Conventions.  Python objects that are shared and mutated (the
    reconstruction [Stack]) live in a store indexed by references; a method
    is a function of the world (the solver object and the store).  Calls a
    method makes are recorded in a trace, and a Python exception ends the
    computation with the trace accumulated so far.  Floating point numbers of
    the solver are kept abstract (a type with the comparison and the printing
    the code uses); the coordinate arithmetic of [resampling] is carried out
    over the rationals. *)

From Stdlib Require Import ZArith QArith Qround List Bool Lia Lqa.
From Stdlib Require Import Ascii String DecimalString DecimalZ.
Import ListNotations.

Set Implicit Arguments.

(* ================================================================== *)
(** * Python built-ins used by the code *)
(* ================================================================== *)

Module Py.

Open Scope string_scope.

(** [str(n)] for a Python integer: decimal digits, ["-"] in front of a
    negative number. *)
Definition str_int (z : Z) : string :=
  NilEmpty.string_of_int (Z.to_int z).

(** [len(l)] *)
Definition len {A : Type} (l : list A) : Z := Z.of_nat (List.length l).

(** [s.replace(old, new)] for one-character [old] and [new]. *)
Fixpoint replace (old new : ascii) (s : string) : string :=
  match s with
  | EmptyString => EmptyString
  | String c s' =>
      String (if Ascii.eqb c old then new else c) (replace old new s')
  end.

(** [c in s] *)
Fixpoint contains (c : ascii) (s : string) : bool :=
  match s with
  | EmptyString => false
  | String d s' => Ascii.eqb d c || contains c s'
  end.

(** A raised exception, identified by the name of its class. *)
Inductive exn : Type :=
| Raise (class_name : string).

(** Index normalisation of a sequence of length [n]: a negative index
    counts from the end, anything else out of range is an [IndexError]. *)
Definition index (n i : Z) : option nat :=
  if (0 <=? i)%Z && (i <? n)%Z then Some (Z.to_nat i)
  else if (- n <=? i)%Z && (i <? 0)%Z then Some (Z.to_nat (i + n))
  else None.

End Py.

(** A computation that may end in a Python exception. *)
Inductive result (A : Type) : Type :=
| Ok (a : A)
| Err (e : Py.exn).
Arguments Ok {A} a.
Arguments Err {A} e.

Definition result_bind {A B : Type} (r : result A) (k : A -> result B)
  : result B :=
  match r with
  | Ok a => k a
  | Err e => Err e
  end.

(** [for k in range(0, n): s = body(k, s)] *)
Definition for_range {S : Type} (n : nat) (body : nat -> S -> result S)
  (s : S) : result S :=
  fold_left (fun acc k => result_bind acc (body k)) (seq 0 n) (Ok s).

(** All elements of a list of results, or the first exception. *)
Fixpoint result_all {A : Type} (l : list (result A)) : result (list A) :=
  match l with
  | [] => Ok []
  | r :: l' =>
      result_bind r (fun a =>
      result_bind (result_all l') (fun al => Ok (a :: al)))
  end.

(* ================================================================== *)
(** * [MyImageProcessingFunctions.resampling] *)
(* ================================================================== *)

Module MyImageProcessingFunctions.

Open Scope Q_scope.

(** A 2D numpy array: its shape and its elements in row-major order
    (what [ravel()] returns). *)
Record ndarray2 : Type := mk_ndarray2 {
  shape0 : nat;
  shape1 : nat;
  ravel : list Q
}.

(** [a.size] *)
Definition size (a : ndarray2) : nat := (shape0 a * shape1 a)%nat.

(** [np.zeros(shape)] *)
Definition np_zeros (n0 n1 : nat) : ndarray2 :=
  mk_ndarray2 n0 n1 (repeat 0 (n0 * n1)).

(** A 3x3 matrix in homogeneous coordinates, row by row. *)
Definition row3 : Type := (Q * Q * Q)%type.
Definition matrix3 : Type := (row3 * row3 * row3)%type.

Definition row_dot (r : row3) (x y w : Q) : Q :=
  let '(a, b, c) := r in a * x + b * y + c * w.

(** The first two rows of [transformation.dot([i, j, 1])]. *)
Definition transform (t : matrix3) (i j : nat) : Q * Q :=
  let '(r0, r1, _) := t in
  (row_dot r0 (inject_Z (Z.of_nat i)) (inject_Z (Z.of_nat j)) 1,
   row_dot r1 (inject_Z (Z.of_nat i)) (inject_Z (Z.of_nat j)) 1).

Definition Qltb (x y : Q) : bool := negb (Qle_bool y x).

(** [np.round]: to the nearest integer, halves to the even neighbour. *)
Definition np_round (q : Q) : Z :=
  let f := Qfloor q in
  match Qcompare (q - inject_Z f) (1 # 2) with
  | Lt => f
  | Gt => (f + 1)%Z
  | Eq => if Z.even f then f else (f + 1)%Z
  end.

(** [np.floor] *)
Definition np_floor (q : Q) : Z := Qfloor q.

(** [np.mgrid[0:n0, 0:n1].reshape(2, n0*n1)]: the columns, that is the
    pixel coordinates [(i, j)] in row-major order. *)
Definition mgrid (n0 n1 : nat) : list (nat * nat) :=
  flat_map (fun i => map (fun j => (i, j)) (seq 0 n1)) (seq 0 n0).

(** [v[v < 0] = 0] followed by [v[v >= n] = 0], on one entry. *)
Definition clamp_to_zero (n : nat) (v : Z) : Z :=
  let v1 := if (v <? 0)%Z then 0%Z else v in
  if (v1 >=? Z.of_nat n)%Z then 0%Z else v1.

(** [a.ravel()[idx]] *)
Definition ravel_get (a : ndarray2) (idx : Z) : result Q :=
  match Py.index (Z.of_nat (List.length (ravel a))) idx with
  | Some k =>
      match nth_error (ravel a) k with
      | Some v => Ok v
      | None => Err (Py.Raise "IndexError")
      end
  | None => Err (Py.Raise "IndexError")
  end.

(** [a[r][c]] *)
Definition getitem2 (a : ndarray2) (r c : Z) : result Q :=
  match Py.index (Z.of_nat (shape0 a)) r, Py.index (Z.of_nat (shape1 a)) c with
  | Some r', Some c' =>
      match nth_error (ravel a) (r' * shape1 a + c') with
      | Some v => Ok v
      | None => Err (Py.Raise "IndexError")
      end
  | _, _ => Err (Py.Raise "IndexError")
  end.

Fixpoint list_set {A : Type} (l : list A) (k : nat) (v : A) : list A :=
  match l, k with
  | [], _ => []
  | _ :: l', O => v :: l'
  | x :: l', S k' => x :: list_set l' k' v
  end.

(** [a[i][j] = v], for [i] and [j] in range. *)
Definition setitem2 (a : ndarray2) (i j : nat) (v : Q) : ndarray2 :=
  mk_ndarray2 (shape0 a) (shape1 a)
    (list_set (ravel a) (i * shape1 a + j) v).

(** [flag_fast_computation = 1] *)
Definition flag_fast_computation : bool := true.

(** The index into [floating.ravel()] the fast nearest-neighbour code
    computes for the reference pixel [(i, j)]. *)
Definition fast_index (floating : ndarray2) (t : matrix3) (i j : nat) : Z :=
  let '(p0, p1) := transform t i j in
  let r0 := clamp_to_zero (shape0 floating) (np_round p0) in
  let r1 := clamp_to_zero (shape1 floating) (np_round p1) in
  (r1 + r0 * Z.of_nat (shape1 floating))%Z.

(** [order == 0], fast branch: everything is done on whole arrays. *)
Definition resampling_fast (reference floating : ndarray2) (t : matrix3)
  : result ndarray2 :=
  let indices :=
    map (fun ij => fast_index floating t (fst ij) (snd ij))
        (mgrid (shape0 reference) (shape1 reference)) in
  result_bind (result_all (map (ravel_get floating) indices))
    (fun warped_image =>
       Ok (mk_ndarray2 (shape0 reference) (shape1 reference) warped_image)).

(** The value the "intuitive" nearest-neighbour loop writes at [(i, j)]. *)
Definition nearest_pixel (floating : ndarray2) (t : matrix3) (padding : Q)
  (i j : nat) : result Q :=
  let '(p0, p1) := transform t i j in
  if Qle_bool 0 p0 && Qle_bool 0 p1
     && Qle_bool p0 (inject_Z (Z.of_nat (shape0 floating) - 1))
     && Qle_bool p1 (inject_Z (Z.of_nat (shape1 floating) - 1))
  then getitem2 floating (np_round p0) (np_round p1)
  else Ok padding.

(** The value the [order == 1] loop writes at [(i, j)]. *)
Definition bilinear_pixel (floating : ndarray2) (t : matrix3) (padding : Q)
  (i j : nat) : result Q :=
  let '(p0, p1) := transform t i j in
  if Qle_bool 0 p0 && Qle_bool 0 p1
     && Qltb p0 (inject_Z (Z.of_nat (shape0 floating) - 1))
     && Qltb p1 (inject_Z (Z.of_nat (shape1 floating) - 1))
  then
    let xfloor := np_floor p0 in
    let yfloor := np_floor p1 in
    let xp := p0 - inject_Z xfloor in
    let yp := p1 - inject_Z yfloor in
    let wa := (1 - xp) * (1 - yp) in
    let wb := xp * (1 - yp) in
    let wc := xp * yp in
    let wd := (1 - xp) * yp in
    result_bind (getitem2 floating xfloor yfloor) (fun Ia =>
    result_bind (getitem2 floating (xfloor + 1) yfloor) (fun Ib =>
    result_bind (getitem2 floating (xfloor + 1) (yfloor + 1)) (fun Ic =>
    result_bind (getitem2 floating xfloor (yfloor + 1)) (fun Id =>
    Ok (wa * Ia + wb * Ib + wc * Ic + wd * Id)))))
  else Ok padding.

(** The two nested loops shared by the pixel-by-pixel branches:
    [for j in range(0, shape[1]): for i in range(0, shape[0]):
       warped_image[i][j] = pixel(i, j)]
    starting from [np.zeros(reference.shape)]. *)
Definition pixel_loops (reference : ndarray2)
  (pixel : nat -> nat -> result Q) : result ndarray2 :=
  for_range (shape1 reference) (fun j warped_image =>
    for_range (shape0 reference) (fun i warped_image =>
      result_bind (pixel i j) (fun v => Ok (setitem2 warped_image i j v)))
      warped_image)
    (np_zeros (shape0 reference) (shape1 reference)).

(** [resampling(reference, floating, transformation, order=0, padding=0)].
    An [order] other than 0 and 1 reaches [return warped_image] with the
    name unbound. *)
Definition resampling (reference floating : ndarray2) (transformation : matrix3)
  (order : Z) (padding : Q) : result ndarray2 :=
  if (order =? 0)%Z then
    if flag_fast_computation then
      resampling_fast reference floating transformation
    else
      pixel_loops reference (nearest_pixel floating transformation padding)
  else if (order =? 1)%Z then
    pixel_loops reference (bilinear_pixel floating transformation padding)
  else Err (Py.Raise "UnboundLocalError").

(** The call with the default arguments [order=0, padding=0]. *)
Definition resampling_default (reference floating : ndarray2)
  (transformation : matrix3) : result ndarray2 :=
  resampling reference floating transformation 0%Z 0.

(** The valid region of the floating image for a real-valued position. *)
Definition inside (floating : ndarray2) (p : Q * Q) : bool :=
  Qle_bool 0 (fst p) && Qle_bool 0 (snd p)
  && Qle_bool (fst p) (inject_Z (Z.of_nat (shape0 floating) - 1))
  && Qle_bool (snd p) (inject_Z (Z.of_nat (shape1 floating) - 1)).

(** ** The other functions of the file *)

(** An array whose buffer has as many elements as its shape says. *)
Definition well_formed (a : ndarray2) : Prop :=
  List.length (ravel a) = (shape0 a * shape1 a)%nat.

(** [np.identity(3)] *)
Definition identity3 : matrix3 := ((1, 0, 0), (0, 1, 0), (0, 0, 1)).

(** [a.dot(b)] for two 3x3 matrices *)
Definition dot (a b : matrix3) : matrix3 :=
  let '((a00, a01, a02), (a10, a11, a12), (a20, a21, a22)) := a in
  let '((b00, b01, b02), (b10, b11, b12), (b20, b21, b22)) := b in
  ((a00 * b00 + a01 * b10 + a02 * b20,
    a00 * b01 + a01 * b11 + a02 * b21,
    a00 * b02 + a01 * b12 + a02 * b22),
   (a10 * b00 + a11 * b10 + a12 * b20,
    a10 * b01 + a11 * b11 + a12 * b21,
    a10 * b02 + a11 * b12 + a12 * b22),
   (a20 * b00 + a21 * b10 + a22 * b20,
    a20 * b01 + a21 * b11 + a22 * b21,
    a20 * b02 + a21 * b12 + a22 * b22)).

(** Two matrices with equal entries, as rational numbers. *)
Definition matrix_eq (a b : matrix3) : Prop :=
  let '((a00, a01, a02), (a10, a11, a12), (a20, a21, a22)) := a in
  let '((b00, b01, b02), (b10, b11, b12), (b20, b21, b22)) := b in
  a00 == b00 /\ a01 == b01 /\ a02 == b02 /\
  a10 == b10 /\ a11 == b11 /\ a12 == b12 /\
  a20 == b20 /\ a21 == b21 /\ a22 == b22.

(** [get_origin_corrected_transformation_2d(array, transformation)].  The
    file is Python 2 code (it uses [xrange]): [shape[0]/2] is the integer
    quotient. *)
Definition get_origin_corrected_transformation_2d (array : ndarray2)
  (transformation : matrix3) : matrix3 :=
  let shift_x := inject_Z (Z.of_nat (shape0 array) / 2) in
  let shift_y := inject_Z (Z.of_nat (shape1 array) / 2) in
  let T1 : matrix3 := ((1, 0, - shift_x), (0, 1, - shift_y), (0, 0, 1)) in
  let T2 : matrix3 := ((1, 0, shift_x), (0, 1, shift_y), (0, 0, 1)) in
  dot (dot T2 transformation) T1.


(** The bounds of a slice [start:stop] of a sequence of length [n]: a
    negative bound counts from the end, and both are clipped to the
    sequence. *)
Definition slice_bound (n i : Z) : Z :=
  if (i <? 0)%Z then Z.max 0 (i + n) else Z.min i n.

Definition in_slice (n start stop : Z) (k : nat) : bool :=
  (slice_bound n start <=? Z.of_nat k)%Z
  && (Z.of_nat k <? slice_bound n stop)%Z.

(** [l[start:stop] = ...], as an update of the selected elements. *)
Definition update_slice {A : Type} (start stop : Z) (f : A -> A)
  (l : list A) : list A :=
  map (fun kx => if in_slice (Z.of_nat (List.length l)) start stop (fst kx)
                 then f (snd kx) else snd kx)
      (combine (seq 0 (List.length l)) l).

(** A 3D [sitk.Image]: what [CopyInformation] copies, and the array
    [GetArrayFromImage] returns, indexed [z][y][x]. *)
Record sitk_volume (Info : Type) : Type := mk_sitk_volume {
  information : Info;
  nda : list (list (list Q))
}.

(** [get_rectangular_mask(image_sitk, x_range, y_range, z_range)] *)
Definition get_rectangular_mask {Info : Type} (image_sitk : sitk_volume Info)
  (x_range y_range z_range : Z * Z) : sitk_volume Info :=
  let mask_nda := nda image_sitk in
  let mask_nda := map (map (map (fun _ => 0))) mask_nda in
  let mask_nda :=
    update_slice (fst z_range) (snd z_range + 1)
      (update_slice (fst y_range) (snd y_range + 1)
         (update_slice (fst x_range) (snd x_range + 1) (fun _ => 1)))
      mask_nda in
  mk_sitk_volume (information image_sitk) mask_nda.

(** The voxel [[z][y][x]] of an array. *)
Definition voxel (a : list (list (list Q))) (z y x : nat) : option Q :=
  match nth_error a z with
  | Some plane =>
      match nth_error plane y with
      | Some line => nth_error line x
      | None => None
      end
  | None => None
  end.

End MyImageProcessingFunctions.

(* ================================================================== *)
(** * [ADMMSolver] *)
(* ================================================================== *)

(** What the solver needs of Python and numpy floats, of the image types of
    ITK and of the attributes of a [Stack] it never looks at. *)
Class PyData : Type := {
  pyfloat : Type;
  (** an integer used where a float is expected, as in [alpha > 0] *)
  float_of_int : Z -> pyfloat;
  (** [x < y] *)
  float_lt : pyfloat -> pyfloat -> bool;
  (** [x - y] *)
  float_sub : pyfloat -> pyfloat -> pyfloat;
  (** [str(x)] *)
  str_float : pyfloat -> string;
  (** [np.linalg.norm(v)] *)
  np_linalg_norm : list pyfloat -> pyfloat;
  (** an [itk.Image] *)
  itk_image : Type;
  (** the attributes of a [Stack] other than [itk] and [sitk] *)
  stack_attributes : Type;
  (** what [get_computational_time()] returns *)
  pytime : Type
}.

Module ADMMSolver.

Section Model.

Context {D : PyData}.

Open Scope string_scope.

(** ** Arrays and images *)

(** A flat numpy vector. *)
Definition vec : Type := list pyfloat.

(** An n-dimensional numpy array: shape and elements in C order. *)
Record ndarray : Type := mk_ndarray {
  shape : list nat;
  data : vec
}.

(** [a.flatten()] *)
Definition flatten (a : ndarray) : vec := data a.

(** [x.reshape(shape)] of a flat vector: the sizes have to agree. *)
Definition reshape (x : vec) (shp : list nat) : result ndarray :=
  if Nat.eqb (List.length x) (fold_right Nat.mul 1%nat shp)
  then Ok (mk_ndarray shp x)
  else Err (Py.Raise "ValueError").

(** [x.max()]: fails on an empty array. *)
Definition np_max (x : vec) : result pyfloat :=
  match x with
  | [] => Err (Py.Raise "ValueError")
  | v :: x' =>
      Ok (fold_left (fun m y => if float_lt m y then y else m) x' v)
  end.

(** A [sitk.Image], as far as the solver reads it. *)
Record sitk_image : Type := mk_sitk_image {
  GetSpacing : pyfloat * pyfloat * pyfloat;
  GetArrayFromImage : ndarray
}.

(** A [Stack] object: the solver reads and assigns the attributes [itk]
    and [sitk]. *)
Record Stack : Type := mk_Stack {
  itk : itk_image;
  sitk : sitk_image;
  attributes : stack_attributes
}.

(** References to [Stack] objects and the store they live in. *)
Definition ref : Type := nat.
Definition store : Type := ref -> Stack.

Definition store_set (h : store) (r : ref) (s : Stack) : store :=
  fun r' => if Nat.eqb r' r then s else h r'.

(** ** The solver object *)

Record Self : Type := mk_Self {
  _stacks : list ref;
  _reconstruction : ref;
  _alpha_cut : pyfloat;
  _alpha : pyfloat;
  _iter_max : Z;
  _minimizer : string;
  _deconvolution_mode : string;
  _predefined_covariance : option vec;
  _verbose : Z;
  _reconstruction_shape : list nat;
  _residual_ell2 : option pyfloat;
  _computational_time : option pytime;
  _rho : pyfloat;
  _iterations : Z
}.

(** The solver object together with the store of the stacks. *)
Record World : Type := mk_World {
  self : Self;
  heap : store
}.

(** [self._reconstruction], dereferenced. *)
Definition reconstruction (w : World) : Stack :=
  heap w (_reconstruction (self w)).

(** A linear operator handed to the numerical solver. *)
Definition operator : Type := vec -> vec.

End Model.

(** ** [numericalsolver.ADMMLinearSolver]: the keyword arguments of its
    constructor *)
Module admm.
Section Args.
Context {D : PyData}.
Record ADMMLinearSolver : Type := mk_ADMMLinearSolver {
  dimension : Z;
  A : operator;
  A_adj : operator;
  B : vec -> result vec;
  B_adj : vec -> result vec;
  b : vec;
  x0 : vec;
  x_scale : pyfloat;
  alpha : pyfloat;
  data_loss : string;
  minimizer : string;
  iter_max : Z;
  rho : pyfloat;
  iterations : Z;
  verbose : Z
}.
End Args.
End admm.

(** The functions [ADMMSolver] calls and the sources do not contain: the
    operator getters of the base class [Solver], the gradient operators of
    [numericalsolver.LinearOperators], the numerical solver itself and the
    image conversions. *)
Class Collaborators {D : PyData} : Type := {
  (** [Solver.get_A], [Solver.get_A_adj], [Solver.get_b] *)
  get_A : World -> operator;
  get_A_adj : World -> operator;
  get_b : World -> vec;
  (** [linop.LinearOperators3D(spacing=spacing).get_gradient_operators()] *)
  get_gradient_operators :
    pyfloat * pyfloat * pyfloat ->
    (ndarray -> ndarray) * (ndarray -> ndarray);
  (** [solver.run()], then [solver.get_x()] and
      [solver.get_computational_time()] *)
  run_solver : admm.ADMMLinearSolver -> vec * pytime;
  (** [Solver._get_itk_image_from_array_vec] *)
  _get_itk_image_from_array_vec : Self -> vec -> itk_image -> itk_image;
  (** [sitkh.get_sitk_from_itk_image] *)
  get_sitk_from_itk_image : itk_image -> sitk_image
}.

Section Methods.

Context {D : PyData} {C : Collaborators}.

Open Scope string_scope.

(** ** Traces *)

(** The calls a method makes, in program order. *)
Inductive event : Type :=
| print_title (s : string)
| print_info (s : string)
| call_get_A
| call_get_A_adj
| call_get_b
| call_get_x0
| call_max (x : vec)
| call_GetSpacing
| new_LinearOperators3D (spacing : pyfloat * pyfloat * pyfloat)
| call_get_gradient_operators
| call_grad (x : ndarray)
| new_ADMMLinearSolver (solver : admm.ADMMLinearSolver)
| call_run (solver : admm.ADMMLinearSolver)
| call_get_computational_time
| call_get_x
| call_get_itk_image_from_array_vec (x : vec)
| call_get_sitk_from_itk_image.

(** A method body: the trace of its calls and its outcome. *)
Definition M (X : Type) : Type := (list event * result X)%type.

Definition ret {X : Type} (x : X) : M X := ([], Ok x).

Definition bind {X Y : Type} (m : M X) (k : X -> M Y) : M Y :=
  match m with
  | (t, Ok x) => let '(t', r) := k x in (t ++ t', r)%list
  | (t, Err e) => (t, Err e)
  end.

(** A call of a collaborator that returns [v]. *)
Definition call {X : Type} (e : event) (v : X) : M X := ([e], Ok v).

(** A call of a numpy operation that may raise. *)
Definition call_result {X : Type} (e : event) (r : result X) : M X :=
  ([e], r).

Definition lift {X : Type} (r : result X) : M X := ([], r).

Definition trace {X : Type} (m : M X) : list event := fst m.
Definition outcome {X : Type} (m : M X) : result X := snd m.

Notation "x <- c1 ;; c2" := (bind c1 (fun x => c2))
  (at level 61, c1 at next level, right associativity).
Notation "c1 ;; c2" := (bind c1 (fun _ => c2))
  (at level 61, right associativity).

(** ** Attribute assignment *)

Definition set_self (w : World) (s : Self) : World :=
  mk_World s (heap w).

(** [self._alpha = v] and its siblings *)
Definition assign_alpha (s : Self) (v : pyfloat) : Self :=
  mk_Self (_stacks s) (_reconstruction s) (_alpha_cut s) v (_iter_max s)
    (_minimizer s) (_deconvolution_mode s) (_predefined_covariance s)
    (_verbose s) (_reconstruction_shape s) (_residual_ell2 s)
    (_computational_time s) (_rho s) (_iterations s).

Definition assign_iter_max (s : Self) (v : Z) : Self :=
  mk_Self (_stacks s) (_reconstruction s) (_alpha_cut s) (_alpha s) v
    (_minimizer s) (_deconvolution_mode s) (_predefined_covariance s)
    (_verbose s) (_reconstruction_shape s) (_residual_ell2 s)
    (_computational_time s) (_rho s) (_iterations s).


Definition assign_computational_time (s : Self) (v : pytime) : Self :=
  mk_Self (_stacks s) (_reconstruction s) (_alpha_cut s) (_alpha s)
    (_iter_max s) (_minimizer s) (_deconvolution_mode s)
    (_predefined_covariance s) (_verbose s) (_reconstruction_shape s)
    (_residual_ell2 s) (Some v) (_rho s) (_iterations s).

Definition assign_rho (s : Self) (v : pyfloat) : Self :=
  mk_Self (_stacks s) (_reconstruction s) (_alpha_cut s) (_alpha s)
    (_iter_max s) (_minimizer s) (_deconvolution_mode s)
    (_predefined_covariance s) (_verbose s) (_reconstruction_shape s)
    (_residual_ell2 s) (_computational_time s) v (_iterations s).

Definition assign_iterations (s : Self) (v : Z) : Self :=
  mk_Self (_stacks s) (_reconstruction s) (_alpha_cut s) (_alpha s)
    (_iter_max s) (_minimizer s) (_deconvolution_mode s)
    (_predefined_covariance s) (_verbose s) (_reconstruction_shape s)
    (_residual_ell2 s) (_computational_time s) (_rho s) v.

(** [self._reconstruction.itk = v]: the object [self._reconstruction]
    refers to is updated in place. *)
Definition assign_reconstruction_itk (w : World) (v : itk_image) : World :=
  let r := _reconstruction (self w) in
  mk_World (self w)
    (store_set (heap w) r
       (mk_Stack v (sitk (heap w r)) (attributes (heap w r)))).

(** [self._reconstruction.sitk = v] *)
Definition assign_reconstruction_sitk (w : World) (v : sitk_image) : World :=
  let r := _reconstruction (self w) in
  mk_World (self w)
    (store_set (heap w) r
       (mk_Stack (itk (heap w r)) v (attributes (heap w r)))).

(** ** The base class [Solver] *)

(** Modelled from the spec: [Solver.__init__], which the sources do not
    contain.  The solver state is the current stacks, the current
    reconstruction volume, the regularization weight, the iteration cap,
    the minimizer choice and the verbosity flag; the constructor stores
    what it is given.  The shape kept in [_reconstruction_shape] is that
    of the array of the reconstruction volume.  The record carries the
    attributes of the subclass from the start; [ADMMSolver.__init__]
    assigns them right after this call. *)
Definition Solver__init__ (h : store) (stacks : list ref)
  (reconstruction : ref) (alpha_cut alpha : pyfloat) (iter_max : Z)
  (minimizer deconvolution_mode : string)
  (predefined_covariance : option vec) (verbose : Z)
  (rho : pyfloat) (iterations : Z) : Self :=
  mk_Self stacks reconstruction alpha_cut alpha iter_max minimizer
    deconvolution_mode predefined_covariance verbose
    (shape (GetArrayFromImage (sitk (h reconstruction))))
    None None rho iterations.

(** Modelled from the spec: [Solver.get_x0], which the sources do not
    contain.  The current reconstruction volume acts as the initial
    value: the initial iterate is its array, flattened, read the way
    [compute_statistics] reads it. *)
Definition get_x0 (w : World) : vec :=
  flatten (GetArrayFromImage (sitk (reconstruction w))).


(** Modelled from the spec: [Solver.set_alpha], which the sources do not
    contain: a pure setter, nothing is recomputed until the solver is
    run. *)
Definition set_alpha (w : World) (alpha : pyfloat) : World :=
  set_self w (assign_alpha (self w) alpha).

(** Modelled from the spec: [Solver.set_iter_max], which the sources do not
    contain: a pure setter, nothing is recomputed until the solver is
    run. *)
Definition set_iter_max (w : World) (iter_max : Z) : World :=
  set_self w (assign_iter_max (self w) iter_max).

(** ** The class [ADMMSolver] *)

(** [ADMMSolver.__init__]: the constructor of the superclass, then
    [self._rho = rho] and [self._iterations = iterations]. *)
Definition __init__ (h : store) (stacks : list ref) (reconstruction : ref)
  (alpha_cut alpha : pyfloat) (iter_max : Z)
  (minimizer deconvolution_mode : string)
  (predefined_covariance : option vec) (rho : pyfloat) (iterations : Z)
  (verbose : Z) : Self :=
  let s := Solver__init__ h stacks reconstruction alpha_cut alpha iter_max
             minimizer deconvolution_mode predefined_covariance verbose
             rho iterations in
  assign_iterations (assign_rho s rho) iterations.

Definition set_rho (w : World) (rho : pyfloat) : World :=
  set_self w (assign_rho (self w) rho).

Definition get_rho (w : World) : pyfloat := _rho (self w).

Definition set_iterations (w : World) (iterations : Z) : World :=
  set_self w (assign_iterations (self w) iterations).

Definition get_iterations (w : World) : Z := _iterations (self w).


(** [get_setting_specific_filename(prefix)] *)
Definition get_setting_specific_filename (s : Self) (prefix : string)
  : string :=
  let filename := prefix in
  let filename := filename ++ ("stacks" ++ Py.str_int (Py.len (_stacks s))) in
  let filename :=
    if float_lt (float_of_int 0) (_alpha s)
    then (filename ++ "_ADMM") ++ "_TV"
    else filename in
  let filename := filename ++ ("_" ++ _minimizer s) in
  let filename := filename ++ ("_alpha" ++ str_float (_alpha s)) in
  let filename := filename ++ ("_itermax" ++ Py.str_int (_iter_max s)) in
  let filename := filename ++ ("_rho" ++ str_float (_rho s)) in
  let filename :=
    filename ++ ("_ADMMiterations" ++ Py.str_int (_iterations s)) in
  Py.replace "." "p" filename.

(** [_print_info_text] *)
Definition _print_info_text (w : World) : M unit :=
  call (print_title "ADMM Solver:") tt ;;
  call (print_info "Chosen regularization type: TV") tt ;;
  call (print_info ("Regularization parameter alpha: "
                    ++ str_float (_alpha (self w)))) tt ;;
  call (print_info
          ("Regularization parameter of augmented Lagrangian term rho: "
           ++ str_float (_rho (self w)))) tt ;;
  call (print_info ("Number of ADMM iterations: "
                    ++ Py.str_int (_iterations (self w)))) tt ;;
  call (print_info ("Maximum number of TK1 solver iterations: "
                    ++ Py.str_int (_iter_max (self w)))) tt.

(** The solver object [_run_reconstruction] constructs, given the values
    it has computed before. *)
Definition make_solver (w : World) (A A_adj : operator) (b x0 : vec)
  (x_scale : pyfloat) (grad grad_adj : ndarray -> ndarray)
  (X_shape Z_shape : list nat) : admm.ADMMLinearSolver :=
  let B := fun x : vec =>
    result_bind (reshape x X_shape) (fun X => Ok (flatten (grad X))) in
  let B_adj := fun x : vec =>
    result_bind (reshape x Z_shape) (fun Z => Ok (flatten (grad_adj Z))) in
  {| admm.dimension := 3;
     admm.A := A;
     admm.A_adj := A_adj;
     admm.B := B;
     admm.B_adj := B_adj;
     admm.b := b;
     admm.x0 := x0;
     admm.x_scale := x_scale;
     admm.alpha := _alpha (self w);
     admm.data_loss := "linear";
     admm.minimizer := "lsmr";
     admm.iter_max := _iter_max (self w);
     admm.rho := _rho (self w);
     admm.iterations := _iterations (self w);
     admm.verbose := _verbose (self w) |}.

(** [_run_reconstruction] *)
Definition _run_reconstruction (w : World) : M World :=
  _print_info_text w ;;
  A <- call call_get_A (get_A w) ;;
  A_adj <- call call_get_A_adj (get_A_adj w) ;;
  b <- call call_get_b (get_b w) ;;
  x0 <- call call_get_x0 (get_x0 w) ;;
  x_scale <- call_result (call_max x0) (np_max x0) ;;
  spacing <- call call_GetSpacing (GetSpacing (sitk (reconstruction w))) ;;
  call (new_LinearOperators3D spacing) tt ;;
  ops <- call call_get_gradient_operators (get_gradient_operators spacing) ;;
  let grad := fst ops in
  let grad_adj := snd ops in
  let X_shape := _reconstruction_shape (self w) in
  X0 <- lift (reshape x0 X_shape) ;;
  Z0 <- call (call_grad X0) (grad X0) ;;
  let Z_shape := shape Z0 in
  let solver :=
    make_solver w A A_adj b x0 x_scale grad grad_adj X_shape Z_shape in
  call (new_ADMMLinearSolver solver) tt ;;
  res <- call (call_run solver) (run_solver solver) ;;
  t <- call call_get_computational_time (snd res) ;;
  let w := set_self w (assign_computational_time (self w) t) in
  x <- call call_get_x (fst res) ;;
  new_itk <- call (call_get_itk_image_from_array_vec x)
               (_get_itk_image_from_array_vec (self w) x
                  (itk (reconstruction w))) ;;
  let w := assign_reconstruction_itk w new_itk in
  new_sitk <- call call_get_sitk_from_itk_image
                (get_sitk_from_itk_image (itk (reconstruction w))) ;;
  let w := assign_reconstruction_sitk w new_sitk in
  ret w.

(** ** Observations on a run *)

(** The solver objects constructed along a trace. *)
Fixpoint solvers_constructed (t : list event)
  : list admm.ADMMLinearSolver :=
  match t with
  | [] => []
  | new_ADMMLinearSolver solver :: t' => solver :: solvers_constructed t'
  | _ :: t' => solvers_constructed t'
  end%list.

(** The solver objects that were run along a trace. *)
Fixpoint solvers_run (t : list event) : list admm.ADMMLinearSolver :=
  match t with
  | [] => []
  | call_run solver :: t' => solver :: solvers_run t'
  | _ :: t' => solvers_run t'
  end%list.




(** The solver object a run constructs from the scale [x_scale] and the
    reshaped initial value [X0]. *)
Definition solver_of (w : World) (x_scale : pyfloat) (X0 : ndarray)
  : admm.ADMMLinearSolver :=
  let ops := get_gradient_operators (GetSpacing (sitk (reconstruction w))) in
  make_solver w (get_A w) (get_A_adj w) (get_b w) (get_x0 w) x_scale
    (fst ops) (snd ops) (_reconstruction_shape (self w))
    (shape (fst ops X0)).

(** The world a run leaves behind once [solver] has been run. *)
Definition world_after (w : World) (solver : admm.ADMMLinearSolver)
  : World :=
  let res := run_solver solver in
  let w := set_self w (assign_computational_time (self w) (snd res)) in
  let w := assign_reconstruction_itk w
             (_get_itk_image_from_array_vec (self w) (fst res)
                (itk (reconstruction w))) in
  assign_reconstruction_sitk w
    (get_sitk_from_itk_image (itk (reconstruction w))).

(** The calls of a run up to and including [x0.max()]. *)
Definition trace_to_max (w : World) : list event :=
  (trace (_print_info_text w)
   ++ [call_get_A; call_get_A_adj; call_get_b; call_get_x0;
       call_max (get_x0 w)])%list.

(** The calls between [x0.max()] and the construction of the solver. *)
Definition trace_operators (w : World) (X0 : ndarray) : list event :=
  [call_GetSpacing;
   new_LinearOperators3D (GetSpacing (sitk (reconstruction w)));
   call_get_gradient_operators;
   call_grad X0].

(** The calls from the construction of the solver on. *)
Definition trace_solve (solver : admm.ADMMLinearSolver) : list event :=
  [new_ADMMLinearSolver solver;
   call_run solver;
   call_get_computational_time;
   call_get_x;
   call_get_itk_image_from_array_vec (fst (run_solver solver));
   call_get_sitk_from_itk_image].

End Methods.

End ADMMSolver.

(* ================================================================== *)
(** * [bin/reconstructRestingStateVolume.py]: how the solver is set up *)
(* ================================================================== *)

Module reconstructRestingStateVolume.

Import ADMMSolver.

Section Script.

Context {D : PyData} {C : Collaborators}.

Open Scope string_scope.

(** The parsed command line, as far as the reconstruction uses it. *)
Record Args : Type := mk_Args {
  regularization : string;
  alpha : pyfloat;
  alpha_final : pyfloat;
  iter_max : Z;
  iter_max_final : Z;
  rho : pyfloat;
  ADMM_iterations : Z;
  minimizer : string;
  data_loss : string;
  two_step_cycles : Z;
  verbose : Z
}.

(** The same command line with another value of [--data-loss]. *)
Definition with_data_loss (args : Args) (loss : string) : Args :=
  mk_Args (regularization args) (alpha args) (alpha_final args)
    (iter_max args) (iter_max_final args) (rho args)
    (ADMM_iterations args) (minimizer args) loss (two_step_cycles args)
    (verbose args).

(** The branch [elif args.regularization == "TV"]:
    [SRR = admm.ADMMSolver(stacks=stacks, reconstruction=HR_volume,
     alpha=args.alpha, minimizer=args.minimizer, iter_max=args.iter_max,
     rho=args.rho, iterations=args.ADMM_iterations, verbose=args.verbose)];
    the remaining parameters take their defaults [alpha_cut=3],
    [deconvolution_mode="full_3D"], [predefined_covariance=None]. *)
Definition SRR_TV (h : store) (args : Args) (stacks : list ref)
  (HR_volume : ref) : World :=
  mk_World
    (__init__ h stacks HR_volume (float_of_int 3) (alpha args)
       (iter_max args) (minimizer args) "full_3D" None (rho args)
       (ADMM_iterations args) (verbose args))
    h.

End Script.

End reconstructRestingStateVolume.

(* ================================================================== *)
(** * [volumetricreconstruction/registration/FLIRT.py] *)
(* ================================================================== *)

Module FLIRT.

Section Model.

(** The images of SimpleITK and the transformations it returns. *)
Variables sitk_image transform_sitk : Type.

Open Scope string_scope.

(** A [Stack], as far as the class reads it. *)
Record Stack : Type := mk_Stack {
  sitk : sitk_image;
  sitk_mask : sitk_image
}.

(** The object [registrationtools.FLIRT.FLIRT(...)] constructs: its keyword
    arguments. *)
Record FLIRT_tool : Type := mk_FLIRT_tool {
  fixed_sitk : sitk_image;
  moving_sitk : sitk_image;
  fixed_sitk_mask : option sitk_image;
  moving_sitk_mask : option sitk_image;
  options : string
}.

(** [tool.run()] followed by [tool.get_registration_transform_sitk()], of
    the package [registrationtools]. *)
Variable run_tool : FLIRT_tool -> transform_sitk.

(** The attributes of a [FLIRT] object; [None] is a legal value of [fixed]
    and [moving]. *)
Record Self : Type := mk_Self {
  _fixed : option Stack;
  _moving : option Stack;
  _use_fixed_mask : bool;
  _use_moving_mask : bool;
  _use_verbose : bool;
  _registration_type : string;
  _options : string;
  _registration_method : option FLIRT_tool;
  _registration_transform_sitk : option transform_sitk
}.

(** [x in l] for a list of strings *)
Definition str_in (x : string) (l : list string) : bool :=
  existsb (String.eqb x) l.

(** [set_registration_type]: the state afterwards, and the exception if
    one was raised. *)
Definition set_registration_type (s : Self) (registration_type : string)
  : Self * result unit :=
  if negb (str_in registration_type ["Rigid"; "Affine"])
  then (s, Err (Py.Raise "ValueError"))
  else (mk_Self (_fixed s) (_moving s) (_use_fixed_mask s)
          (_use_moving_mask s) (_use_verbose s) registration_type
          (_options s) (_registration_method s)
          (_registration_transform_sitk s),
        Ok tt).

Definition get_registration_type (s : Self) : string :=
  _registration_type s.

Definition set_options (s : Self) (options : string) : Self :=
  mk_Self (_fixed s) (_moving s) (_use_fixed_mask s) (_use_moving_mask s)
    (_use_verbose s) (_registration_type s) options
    (_registration_method s) (_registration_transform_sitk s).

Definition get_options (s : Self) : string := _options s.

(** [o.attribute] where [o] may be [None] *)
Definition getattr {A B : Type} (o : option A) (attribute : A -> B)
  : result B :=
  match o with
  | Some a => Ok (attribute a)
  | None => Err (Py.Raise "AttributeError")
  end.

(** The option string [_run_registration] hands to the tool. *)
Definition tool_options (s : Self) : string :=
  let options := _options s in
  let options :=
    if String.eqb (_registration_type s) "Rigid" then options ++ " -dof 6"
    else if String.eqb (_registration_type s) "Affine"
         then options ++ " -dof 12"
         else options in
  if _use_verbose s then options ++ " -verbose 1" else options.

(** The tool object [_run_registration] constructs, if it gets that far. *)
Definition make_tool (s : Self) : result FLIRT_tool :=
  result_bind
    (if _use_fixed_mask s
     then result_bind (getattr (_fixed s) sitk_mask) (fun m => Ok (Some m))
     else Ok None)
    (fun fixed_sitk_mask =>
  result_bind
    (if _use_moving_mask s
     then result_bind (getattr (_moving s) sitk_mask) (fun m => Ok (Some m))
     else Ok None)
    (fun moving_sitk_mask =>
  let options := tool_options s in
  result_bind (getattr (_fixed s) sitk) (fun fixed_sitk =>
  result_bind (getattr (_moving s) sitk) (fun moving_sitk =>
  Ok (mk_FLIRT_tool fixed_sitk moving_sitk fixed_sitk_mask moving_sitk_mask
        options))))).

(** [_run_registration]: the state afterwards, and the exception if one was
    raised.  All assignments follow the construction of the tool. *)
Definition _run_registration (s : Self) : Self * result unit :=
  match make_tool s with
  | Err e => (s, Err e)
  | Ok tool =>
      (mk_Self (_fixed s) (_moving s) (_use_fixed_mask s)
         (_use_moving_mask s) (_use_verbose s) (_registration_type s)
         (_options s) (Some tool) (Some (run_tool tool)),
       Ok tt)
  end.

End Model.

End FLIRT.

(* ================================================================== *)
(** * [preprocessing/N4BiasFieldCorrection.py] *)
(* ================================================================== *)

Module N4BiasFieldCorrection.

Section Model.

Variable sitk_image : Type.

Open Scope string_scope.

(** A [Stack], as far as the class reads it. *)
Record Stack : Type := mk_Stack {
  get_filename : string;
  sitk : sitk_image;
  sitk_mask : sitk_image
}.

(** [definitions.dir_build_cpp] *)
Variable dir_build_cpp : string.

(** [sitk.ReadImage(path, sitk.sitkFloat64)]: what the file holds once the
    command has run. *)
Variable ReadImage : string -> sitk_image.

(** [sitk.Resample(mask, image, sitk.Euler3DTransform(),
    sitk.sitkNearestNeighbor, 0, mask.GetPixelIDValue())] *)
Variable Resample : sitk_image -> sitk_image -> sitk_image.

(** [st.Stack.from_sitk_image(image, filename, mask)] *)
Variable from_sitk_image : sitk_image -> string -> sitk_image -> Stack.

(** What the methods do to the file system and the shell. *)
Inductive event : Type :=
| create_directory (directory : string)
| clear_directory (directory : string)
| WriteImage (image : sitk_image) (path : string)
| execute_command (cmd : string)
| read_image (path : string).

Record Self : Type := mk_Self {
  _stack : option Stack;
  _dir_tmp : string;
  _use_mask : bool;
  _use_verbose : bool;
  _stack_corrected : option Stack
}.

(** [__init__]: the attributes, and the directory being created. *)
Definition __init__ (stack : option Stack) (dir_tmp : string)
  (use_mask use_verbose : bool) : list event * Self :=
  ([create_directory dir_tmp],
   mk_Self stack dir_tmp use_mask use_verbose None).

Definition set_stack (s : Self) (stack : option Stack) : Self :=
  mk_Self stack (_dir_tmp s) (_use_mask s) (_use_verbose s)
    (_stack_corrected s).

Definition get_bias_field_corrected_stack (s : Self) : option Stack :=
  _stack_corrected s.

(** The command line [run_bias_field_correction] assembles. *)
Definition command (s : Self) (filename_out : string) : string :=
  let cmd := dir_build_cpp ++ "/bin/runN4BiasFieldCorrectionImageFilter " in
  let cmd := cmd ++ ((("--f " ++ _dir_tmp s) ++ filename_out) ++ " ") in
  let cmd :=
    if _use_mask s
    then cmd ++ ((("--fmask " ++ _dir_tmp s) ++ filename_out) ++ "_mask ")
    else cmd in
  let cmd := cmd ++ (("--tout " ++ _dir_tmp s) ++ " ") in
  cmd ++ ("--m " ++ filename_out).

(** [run_bias_field_correction]: the events, the state afterwards, and the
    exception if one was raised. *)
Definition run_bias_field_correction (s : Self)
  : list event * Self * result unit :=
  let t := [clear_directory (_dir_tmp s)] in
  match _stack s with
  | None => (t, s, Err (Py.Raise "AttributeError"))
  | Some stack =>
      let filename_out := get_filename stack in
      let t := (t ++ [WriteImage (sitk stack)
                        ((_dir_tmp s ++ filename_out) ++ ".nii.gz")])%list in
      let t :=
        if _use_mask s
        then (t ++ [WriteImage (sitk_mask stack)
                      ((_dir_tmp s ++ filename_out) ++ "_mask.nii.gz")])%list
        else t in
      let cmd := command s filename_out in
      let t := (t ++ [execute_command cmd])%list in
      let path := (_dir_tmp s ++ filename_out) ++ "_corrected.nii.gz" in
      let stack_corrected_sitk := ReadImage path in
      let t := (t ++ [read_image path])%list in
      let stack_corrected_sitk_mask :=
        Resample (sitk_mask stack) stack_corrected_sitk in
      (t,
       mk_Self (_stack s) (_dir_tmp s) (_use_mask s) (_use_verbose s)
         (Some (from_sitk_image stack_corrected_sitk (get_filename stack)
                  stack_corrected_sitk_mask)),
       Ok tt)
  end.

(** The paths of the files a trace writes or reads. *)
Definition paths (t : list event) : list string :=
  flat_map (fun e => match e with
                     | WriteImage _ path => [path]
                     | read_image path => [path]
                     | _ => []
                     end) t.

(** The commands a trace executes. *)
Definition commands (t : list event) : list string :=
  flat_map (fun e => match e with
                     | execute_command cmd => [cmd]
                     | _ => []
                     end) t.

End Model.

End N4BiasFieldCorrection.

(* ================================================================== *)
(** * A small instance, to run the model on *)
(* ================================================================== *)

Module Instance.

Import ADMMSolver.

Open Scope string_scope.
Open Scope Z_scope.

(** Floats with integral values: [str(3.0)] is ["3.0"]. *)
Definition data : PyData := {|
  pyfloat := Z;
  float_of_int := fun z => z;
  float_lt := Z.ltb;
  float_sub := Z.sub;
  str_float := fun z => (Py.str_int z ++ ".0")%string;
  np_linalg_norm := fun v => Z.sqrt (fold_right (fun x acc => x * x + acc) 0 v);
  itk_image := ((Z * Z * Z) * (list nat * list Z))%type;
  stack_attributes := string;
  pytime := Z
|}.

Definition image (spacing : Z * Z * Z) (shp : list nat) (v : list Z)
  : @sitk_image data :=
  @mk_sitk_image data spacing (@mk_ndarray data shp v).

Definition stack (spacing : Z * Z * Z) (shp : list nat) (v : list Z)
  (name : string) : @Stack data :=
  @mk_Stack data (spacing, (shp, v)) (image spacing shp v) name.

(** The acquisition operator is the identity, the observations are the
    samples of the first stack, the gradient stacks three copies and the
    numerical solver adds one to every sample of its initial value. *)
Definition collaborators : @Collaborators data := {|
  get_A := fun _ x => x;
  get_A_adj := fun _ x => x;
  get_b := fun w =>
    flatten (GetArrayFromImage (sitk (heap w (hd 0%nat (_stacks (self w))))));
  get_gradient_operators := fun _ =>
    (fun X => @mk_ndarray data (3%nat :: shape X)
                (ADMMSolver.data X ++ ADMMSolver.data X ++ ADMMSolver.data X)%list,
     fun Y => @mk_ndarray data (tl (shape Y))
                (firstn (fold_right Nat.mul 1%nat (tl (shape Y)))
                   (ADMMSolver.data Y)));
  run_solver := fun s => (map (fun v => v + 1) (admm.x0 s), 7);
  _get_itk_image_from_array_vec := fun _ x i => (fst i, (fst (snd i), x));
  get_sitk_from_itk_image := fun i => image (fst i) (fst (snd i)) (snd (snd i))
|}.

(** Object 0 is the reconstruction volume, objects 1 and 2 are stacks. *)
Definition heap0 : @store data :=
  fun r =>
    match r with
    | O => stack (1, 1, 1) [1; 1; 2]%nat [10; 20] "HR_volume"
    | S O => stack (1, 1, 3) [1; 1; 2]%nat [11; 22] "stack1"
    | _ => stack (1, 1, 3) [1; 1; 2]%nat [12; 21] "stack2"
    end.

Definition self0 : @Self data :=
  @__init__ data heap0 [1; 2]%nat 0%nat 3 2 10 "lsmr" "full_3D" None 5 4 0.

Definition world0 : @World data := @mk_World data self0 heap0.




(** Two solvers whose minimizer names differ in one character. *)
Definition self_dot : @Self data :=
  @__init__ data heap0 [1; 2]%nat 0%nat 3 2 10 "a.b" "full_3D" None 5 4 0.

Definition self_p : @Self data :=
  @__init__ data heap0 [1; 2]%nat 0%nat 3 2 10 "apb" "full_3D" None 5 4 0.

(** A floating image, a reference grid of the same shape and the
    translation by one column. *)
Definition floating0 : MyImageProcessingFunctions.ndarray2 :=
  MyImageProcessingFunctions.mk_ndarray2 2 2 [1; 2; 3; 4]%Q.

Definition reference0 : MyImageProcessingFunctions.ndarray2 :=
  MyImageProcessingFunctions.np_zeros 2 2.

Definition shift_column : MyImageProcessingFunctions.matrix3 :=
  ((1, 0, 0), (0, 1, 1), (0, 0, 1))%Q.

Definition args0 (loss : string)
  : @reconstructRestingStateVolume.Args data :=
  @reconstructRestingStateVolume.mk_Args data
    "TV" 2 3 10 20 5 4 "L-BFGS-B" loss 0 0.

(** An image without pixels. *)
Definition empty_image : MyImageProcessingFunctions.ndarray2 :=
  MyImageProcessingFunctions.mk_ndarray2 0 0 [].

(** The rotation by a quarter turn. *)
Definition quarter_turn : MyImageProcessingFunctions.matrix3 :=
  ((0, 1, 0), (- (1), 0, 0), (0, 0, 1))%Q.

(** A volume of one plane of two lines of three voxels. *)
Definition volume0 : MyImageProcessingFunctions.sitk_volume string :=
  MyImageProcessingFunctions.mk_sitk_volume "geometry"
    [[[5; 6; 7]; [8; 9; 10]]]%Q.

(** A FLIRT object with both images set, images and transformations being
    numbers. *)
Definition flirt0 : FLIRT.Self nat nat :=
  FLIRT.mk_Self (Some (FLIRT.mk_Stack 1%nat 2%nat))
    (Some (FLIRT.mk_Stack 3%nat 4%nat))
    true false true "Rigid" "-cost normcorr" None None.

(** The same object without a moving image. *)
Definition flirt_no_moving : FLIRT.Self nat nat :=
  FLIRT.mk_Self (Some (FLIRT.mk_Stack 1%nat 2%nat)) None
    true false true "Rigid" "-cost normcorr" None None.

Definition flirt_tool (tool : FLIRT.FLIRT_tool nat) : nat :=
  (FLIRT.fixed_sitk tool + FLIRT.moving_sitk tool)%nat.

(** An object for the bias field correction of a stack with a mask. *)
Definition n4_self : N4BiasFieldCorrection.Self nat :=
  N4BiasFieldCorrection.mk_Self
    (Some (N4BiasFieldCorrection.mk_Stack "stack1" 1%nat 2%nat))
    "/tmp/N4BiasFieldCorrection/" true false None.

(** The sum of the products of two vectors, and the doubling of every
    sample of an array. *)
Definition dot_product (x y : list Z) : Z :=
  fold_right Z.add 0 (map (fun p => fst p * snd p) (combine x y)).

Definition double (X : @ndarray data) : @ndarray data :=
  @mk_ndarray data (shape X) (map (fun v => 2 * v) (@ADMMSolver.data data X)).

End Instance.

(* ================================================================== *)
(** * Facts about strings *)
(* ================================================================== *)

Section StringFacts.

Open Scope string_scope.

Lemma append_assoc_str (a b c : string) : (a ++ b) ++ c = a ++ (b ++ c).
Proof.
  induction a as [|x a IH]; simpl; [reflexivity | now rewrite IH].
Qed.

Lemma append_cancel_head (a x y : string) : a ++ x = a ++ y -> x = y.
Proof.
  induction a as [|c a IH]; simpl; intros H; [exact H|].
  injection H as H. auto.
Qed.












End StringFacts.

(* ================================================================== *)
(** * The setting specific filename *)
(* ================================================================== *)

Section Filename.

Import ADMMSolver.

Context {D : PyData}.

Open Scope string_scope.



Section Distinct.

(** What is assumed of [str] on floats: it tells different values apart
    and prints neither an underscore nor the letter p. *)
Hypothesis str_float_injective :
  forall x y : pyfloat, str_float x = str_float y -> x = y.
Hypothesis str_float_chars :
  forall x : pyfloat,
    Py.contains "_" (str_float x) = false /\
    Py.contains "p" (str_float x) = false.




End Distinct.

End Filename.

(* ================================================================== *)
(** * The shape of a run of [_run_reconstruction] *)
(* ================================================================== *)

Section RunFacts.

Import ADMMSolver.

Context {D : PyData} {C : Collaborators}.

(** An empty initial value: [x0.max()] raises, after the acquisition
    operators have been obtained. *)
Lemma run_max_raises (w : World) (e : Py.exn) :
  np_max (get_x0 w) = Err e ->
  _run_reconstruction w = (trace_to_max w, Err e).
Proof.
  intros H.
  cbv beta iota zeta delta
    [_run_reconstruction _print_info_text bind call call_result lift ret].
  rewrite H. reflexivity.
Qed.

(** An initial value that does not fit [_reconstruction_shape]: the
    reshape raises, after the gradient operators have been constructed. *)
Lemma run_reshape_raises (w : World) (x_scale : pyfloat) (e : Py.exn) :
  np_max (get_x0 w) = Ok x_scale ->
  reshape (get_x0 w) (_reconstruction_shape (self w)) = Err e ->
  _run_reconstruction w =
  ((trace_to_max w
    ++ [call_GetSpacing;
        new_LinearOperators3D (GetSpacing (sitk (reconstruction w)));
        call_get_gradient_operators])%list,
   Err e).
Proof.
  intros Hmax Hre.
  cbv beta iota zeta delta
    [_run_reconstruction _print_info_text bind call call_result lift ret].
  rewrite Hmax, Hre. reflexivity.
Qed.

(** Otherwise the run goes through. *)
Lemma run_returns (w : World) (x_scale : pyfloat) (X0 : ndarray) :
  np_max (get_x0 w) = Ok x_scale ->
  reshape (get_x0 w) (_reconstruction_shape (self w)) = Ok X0 ->
  _run_reconstruction w =
  ((trace_to_max w ++ trace_operators w X0
    ++ trace_solve (solver_of w x_scale X0))%list,
   Ok (world_after w (solver_of w x_scale X0))).
Proof.
  intros Hmax Hre.
  cbv beta iota zeta delta
    [_run_reconstruction _print_info_text bind call call_result lift ret].
  rewrite Hmax, Hre. reflexivity.
Qed.

(** The two exceptions the method can raise itself are numpy's. *)
Lemma np_max_raises (x : vec) (e : Py.exn) :
  np_max x = Err e -> e = Py.Raise "ValueError".
Proof.
  destruct x; simpl; intros H; [now injection H | discriminate].
Qed.

Lemma reshape_raises (x : vec) (shp : list nat) (e : Py.exn) :
  reshape x shp = Err e -> e = Py.Raise "ValueError".
Proof.
  unfold reshape. destruct (Nat.eqb _ _); intros H;
    [discriminate | now injection H].
Qed.

Lemma reshape_returns (x : vec) (shp : list nat) (X : ndarray) :
  reshape x shp = Ok X -> shape X = shp /\ flatten X = x.
Proof.
  unfold reshape. destruct (Nat.eqb _ _); intros H; [|discriminate].
  injection H as <-. now split.
Qed.

(** A run that returns went through the third case. *)
Lemma run_returns_inv (w w' : World) :
  outcome (_run_reconstruction w) = Ok w' ->
  exists x_scale X0,
    np_max (get_x0 w) = Ok x_scale /\
    reshape (get_x0 w) (_reconstruction_shape (self w)) = Ok X0 /\
    trace (_run_reconstruction w) =
      (trace_to_max w ++ trace_operators w X0
       ++ trace_solve (solver_of w x_scale X0))%list /\
    w' = world_after w (solver_of w x_scale X0).
Proof.
  intros H.
  destruct (np_max (get_x0 w)) as [x_scale|e] eqn:Hmax.
  - destruct (reshape (get_x0 w) (_reconstruction_shape (self w)))
      as [X0|e] eqn:Hre.
    + rewrite (run_returns w Hmax Hre) in H |- *.
      exists x_scale, X0. cbn in H. injection H as <-. now repeat split.
    + rewrite (run_reshape_raises w Hmax Hre) in H. discriminate.
  - rewrite (run_max_raises w Hmax) in H. discriminate.
Qed.

(** Whatever a run constructs is the solver object [solver_of] describes,
    and it constructs at most one. *)
Lemma solvers_constructed_inv (w : World) :
  (solvers_constructed (trace (_run_reconstruction w)) = [] /\
   solvers_run (trace (_run_reconstruction w)) = []) \/
  exists x_scale X0,
    np_max (get_x0 w) = Ok x_scale /\
    reshape (get_x0 w) (_reconstruction_shape (self w)) = Ok X0 /\
    solvers_constructed (trace (_run_reconstruction w)) =
      [solver_of w x_scale X0] /\
    solvers_run (trace (_run_reconstruction w)) = [solver_of w x_scale X0].
Proof.
  destruct (np_max (get_x0 w)) as [x_scale|e] eqn:Hmax.
  - destruct (reshape (get_x0 w) (_reconstruction_shape (self w)))
      as [X0|e] eqn:Hre.
    + right. exists x_scale, X0.
      rewrite (run_returns w Hmax Hre). now repeat split.
    + left. now rewrite (run_reshape_raises w Hmax Hre).
  - left. now rewrite (run_max_raises w Hmax).
Qed.



(** The store after a run: the object [self._reconstruction] refers to has
    new images, every other object is untouched. *)
Lemma reconstruction_world_after (w : World)
  (solver : admm.ADMMLinearSolver) :
  let self' := assign_computational_time (self w) (snd (run_solver solver)) in
  let new_itk :=
    _get_itk_image_from_array_vec self' (fst (run_solver solver))
      (itk (reconstruction w)) in
  self (world_after w solver) = self' /\
  reconstruction (world_after w solver) =
    mk_Stack new_itk (get_sitk_from_itk_image new_itk)
      (attributes (reconstruction w)).
Proof.
  unfold world_after, reconstruction, assign_reconstruction_sitk,
    assign_reconstruction_itk, set_self, store_set; cbn.
  now rewrite !Nat.eqb_refl.
Qed.

Lemma heap_world_after (w : World) (solver : admm.ADMMLinearSolver)
  (r : ref) :
  r <> _reconstruction (self w) ->
  heap (world_after w solver) r = heap w r.
Proof.
  intros Hr.
  unfold world_after, reconstruction, assign_reconstruction_sitk,
    assign_reconstruction_itk, set_self, store_set; cbn.
  apply Nat.eqb_neq in Hr. now rewrite Hr.
Qed.

End RunFacts.

(* ================================================================== *)
(** * The arguments of the inner solver *)
(* ================================================================== *)

Section InnerSolver.

Import ADMMSolver.

Context {D : PyData} {C : Collaborators}.

Open Scope string_scope.

(** The two literals of the constructor call. *)
Lemma solver_of_literals (w : World) (x_scale : pyfloat) (X0 : ndarray) :
  admm.data_loss (solver_of w x_scale X0) = "linear" /\
  admm.minimizer (solver_of w x_scale X0) = "lsmr".
Proof. now split. Qed.

Lemma constructed_literals (w : World) :
  Forall (fun solver => admm.data_loss solver = "linear" /\
                        admm.minimizer solver = "lsmr")
    (solvers_constructed (trace (_run_reconstruction w))).
Proof.
  destruct (solvers_constructed_inv w)
    as [[-> _]|(xs & X0 & _ & _ & -> & _)].
  - constructor.
  - constructor; [apply solver_of_literals | constructor].
Qed.

Lemma returns_constructs_one (w w' : World) :
  outcome (_run_reconstruction w) = Ok w' ->
  exists solver,
    solvers_constructed (trace (_run_reconstruction w)) = [solver] /\
    solvers_run (trace (_run_reconstruction w)) = [solver] /\
    w' = world_after w solver.
Proof.
  intros H.
  destruct (run_returns_inv w H) as (xs & X0 & _ & _ & Ht & ->).
  exists (solver_of w xs X0). rewrite Ht. now repeat split.
Qed.

End InnerSolver.

(** C1.  Whatever data loss is configured on the command line (linear,
    soft_l1, huber or anything else), the solver set up for TV
    regularization is the same object, every inner solver a run of it
    constructs has its data loss set to "linear", and a run that returns has
    constructed and run exactly one inner solver: the configured data loss
    never reaches the ADMM inner solve. *)
Theorem admm_data_loss_is_linear
  {D : PyData} {C : ADMMSolver.Collaborators}
  (h : ADMMSolver.store) (args : reconstructRestingStateVolume.Args)
  (stacks : list ADMMSolver.ref) (HR_volume : ADMMSolver.ref)
  (loss : string) :
  let w := reconstructRestingStateVolume.SRR_TV h
             (reconstructRestingStateVolume.with_data_loss args loss)
             stacks HR_volume in
  w = reconstructRestingStateVolume.SRR_TV h args stacks HR_volume /\
  Forall (fun solver => ADMMSolver.admm.data_loss solver = "linear"%string)
    (ADMMSolver.solvers_constructed
       (ADMMSolver.trace (ADMMSolver._run_reconstruction w))) /\
  (forall w',
      ADMMSolver.outcome (ADMMSolver._run_reconstruction w) = Ok w' ->
      exists solver,
        ADMMSolver.solvers_constructed
          (ADMMSolver.trace (ADMMSolver._run_reconstruction w)) = [solver] /\
        ADMMSolver.solvers_run
          (ADMMSolver.trace (ADMMSolver._run_reconstruction w)) = [solver] /\
        ADMMSolver.admm.data_loss solver = "linear"%string).
Proof.
  intros w. split; [reflexivity|]. split.
  - eapply Forall_impl; [|apply constructed_literals]. now intros s [H _].
  - intros w' H.
    destruct (returns_constructs_one _ H) as (solver & Hc & Hr & _).
    exists solver. repeat split; try assumption.
    pose proof (constructed_literals w) as HF. rewrite Hc in HF.
    now inversion HF as [|? ? [Hl _] _].
Qed.

(** A run with [--data-loss huber] on the small instance. *)
Lemma admm_data_loss_is_linear_witness :
  exists solver,
    ADMMSolver.solvers_constructed
      (ADMMSolver.trace
         (@ADMMSolver._run_reconstruction Instance.data Instance.collaborators
            (@reconstructRestingStateVolume.SRR_TV Instance.data
               Instance.heap0
               (@reconstructRestingStateVolume.with_data_loss Instance.data
                  (Instance.args0 "linear") "huber")
               [1; 2]%nat 0%nat))) = [solver] /\
    ADMMSolver.admm.data_loss solver = "linear"%string.
Proof.
  destruct (@admm_data_loss_is_linear Instance.data Instance.collaborators
              Instance.heap0 (Instance.args0 "linear") [1; 2]%nat 0%nat
              "huber") as (_ & _ & H).
  destruct (H _ eq_refl) as (solver & Hc & _ & Hl).
  exists solver. split; assumption.
Defined.

(** C10.  Whatever minimizer is passed to the constructor of [ADMMSolver]
    (for instance "L-BFGS-B"), the constructor records it, every inner
    solver a run constructs has its minimizer set to "lsmr", and a run that
    returns has constructed and run exactly one inner solver. *)
Theorem admm_minimizer_is_lsmr
  {D : PyData} {C : ADMMSolver.Collaborators}
  (h : ADMMSolver.store) (stacks : list ADMMSolver.ref)
  (reconstruction : ADMMSolver.ref) (alpha_cut alpha : pyfloat)
  (iter_max : Z) (minimizer deconvolution_mode : string)
  (predefined_covariance : option ADMMSolver.vec) (rho : pyfloat)
  (iterations verbose : Z) :
  let w := ADMMSolver.mk_World
             (ADMMSolver.__init__ h stacks reconstruction alpha_cut alpha
                iter_max minimizer deconvolution_mode predefined_covariance
                rho iterations verbose) h in
  ADMMSolver._minimizer (ADMMSolver.self w) = minimizer /\
  Forall (fun solver => ADMMSolver.admm.minimizer solver = "lsmr"%string)
    (ADMMSolver.solvers_constructed
       (ADMMSolver.trace (ADMMSolver._run_reconstruction w))) /\
  (forall w',
      ADMMSolver.outcome (ADMMSolver._run_reconstruction w) = Ok w' ->
      exists solver,
        ADMMSolver.solvers_constructed
          (ADMMSolver.trace (ADMMSolver._run_reconstruction w)) = [solver] /\
        ADMMSolver.solvers_run
          (ADMMSolver.trace (ADMMSolver._run_reconstruction w)) = [solver] /\
        ADMMSolver.admm.minimizer solver = "lsmr"%string).
Proof.
  intros w. split; [reflexivity|]. split.
  - eapply Forall_impl; [|apply constructed_literals]. now intros s [_ H].
  - intros w' H.
    destruct (returns_constructs_one _ H) as (solver & Hc & Hr & _).
    exists solver. repeat split; try assumption.
    pose proof (constructed_literals w) as HF. rewrite Hc in HF.
    now inversion HF as [|? ? [_ Hm] _].
Qed.

(** A solver constructed with the minimizer "L-BFGS-B" on the small
    instance. *)
Lemma admm_minimizer_is_lsmr_witness :
  exists solver,
    ADMMSolver.solvers_run
      (ADMMSolver.trace
         (@ADMMSolver._run_reconstruction Instance.data Instance.collaborators
            (@ADMMSolver.mk_World Instance.data
               (@ADMMSolver.__init__ Instance.data Instance.heap0
                  [1; 2]%nat 0%nat 3%Z 2%Z 10%Z "L-BFGS-B" "full_3D" None
                  5%Z 4%Z 0%Z)
               Instance.heap0))) = [solver] /\
    ADMMSolver.admm.minimizer solver = "lsmr"%string.
Proof.
  destruct (@admm_minimizer_is_lsmr Instance.data Instance.collaborators
              Instance.heap0 [1; 2]%nat 0%nat 3%Z 2%Z 10%Z "L-BFGS-B"
              "full_3D" None 5%Z 4%Z 0%Z) as (_ & _ & H).
  destruct (H _ eq_refl) as (solver & _ & Hr & Hm).
  exists solver. split; assumption.
Defined.

(* ================================================================== *)
(** * The reconstruction volume across runs *)
(* ================================================================== *)

(** C2.  A run reads its initial iterate from the current reconstruction
    volume and, on completion, overwrites that volume with the result of
    the solver; a second run, possibly after [set_alpha] and [set_iter_max],
    therefore starts from the volume the first run has written and not from
    the original one. *)
Theorem second_run_starts_from_first_result
  {D : PyData} {C : ADMMSolver.Collaborators}
  (w w1 : ADMMSolver.World) (alpha : pyfloat) (iter_max : Z) :
  ADMMSolver.outcome (ADMMSolver._run_reconstruction w) = Ok w1 ->
  exists solver1,
    ADMMSolver.solvers_run
      (ADMMSolver.trace (ADMMSolver._run_reconstruction w)) = [solver1] /\
    ADMMSolver.admm.x0 solver1 =
      ADMMSolver.flatten
        (ADMMSolver.GetArrayFromImage
           (ADMMSolver.sitk (ADMMSolver.reconstruction w))) /\
    ADMMSolver.sitk (ADMMSolver.reconstruction w1) =
      ADMMSolver.get_sitk_from_itk_image
        (ADMMSolver._get_itk_image_from_array_vec (ADMMSolver.self w1)
           (fst (ADMMSolver.run_solver solver1))
           (ADMMSolver.itk (ADMMSolver.reconstruction w))) /\
    Forall
      (fun solver2 =>
         ADMMSolver.admm.x0 solver2 =
           ADMMSolver.flatten
             (ADMMSolver.GetArrayFromImage
                (ADMMSolver.sitk (ADMMSolver.reconstruction w1))))
      (ADMMSolver.solvers_run
         (ADMMSolver.trace
            (ADMMSolver._run_reconstruction
               (ADMMSolver.set_iter_max (ADMMSolver.set_alpha w1 alpha)
                  iter_max)))).
Proof.
  intros H.
  destruct (returns_constructs_one _ H) as (solver1 & Hc & Hr & ->).
  destruct (run_returns_inv _ H) as (xs & X0 & _ & _ & Ht & Hw).
  exists solver1. split; [exact Hr|].
  assert (Hs : solver1 = ADMMSolver.solver_of w xs X0).
  { rewrite Ht in Hr. cbn in Hr. now injection Hr. }
  split; [now rewrite Hs|]. split.
  - destruct (reconstruction_world_after w solver1) as [Hself Hrec].
    now rewrite Hrec, Hself.
  - destruct (solvers_constructed_inv
                (ADMMSolver.set_iter_max
                   (ADMMSolver.set_alpha (ADMMSolver.world_after w solver1)
                      alpha) iter_max))
      as [[_ ->]|(xs2 & X2 & _ & _ & _ & ->)].
    + constructor.
    + constructor; [reflexivity | constructor].
Qed.

(** Two runs on the small instance, whose solver adds one to every sample:
    the first starts from [10; 20], the second from [11; 21]. *)
Lemma second_run_starts_from_first_result_witness :
  exists (w1 : @ADMMSolver.World Instance.data)
         (solver1 : @ADMMSolver.admm.ADMMLinearSolver Instance.data),
    ADMMSolver.outcome
      (@ADMMSolver._run_reconstruction Instance.data Instance.collaborators
         Instance.world0) = Ok w1 /\
    @ADMMSolver.admm.x0 Instance.data solver1 = [10; 20]%Z /\
    Forall (fun solver2 => @ADMMSolver.admm.x0 Instance.data solver2
                           = [11; 21]%Z)
      (ADMMSolver.solvers_run
         (ADMMSolver.trace
            (@ADMMSolver._run_reconstruction Instance.data
               Instance.collaborators
               (@ADMMSolver.set_iter_max Instance.data
                  (@ADMMSolver.set_alpha Instance.data w1 3%Z) 20%Z)))).
Proof.
  eexists. 
  destruct (@second_run_starts_from_first_result Instance.data
              Instance.collaborators Instance.world0 _ 3%Z 20%Z eq_refl)
    as (solver1 & _ & Hx0 & _ & H2).
  exists solver1. split; [reflexivity|]. split.
  - exact Hx0.
  - exact H2.
Defined.

(** C9.  A run that returns leaves [self._reconstruction] referring to the
    same object; of that object only the attributes [itk] and [sitk] are
    replaced, by the images made from the result of the solver; every other
    object of the store is left as it was. *)
Theorem run_keeps_reconstruction_identity
  {D : PyData} {C : ADMMSolver.Collaborators} (w w' : ADMMSolver.World) :
  ADMMSolver.outcome (ADMMSolver._run_reconstruction w) = Ok w' ->
  ADMMSolver._reconstruction (ADMMSolver.self w') =
    ADMMSolver._reconstruction (ADMMSolver.self w) /\
  ADMMSolver.attributes (ADMMSolver.reconstruction w') =
    ADMMSolver.attributes (ADMMSolver.reconstruction w) /\
  (forall r : ADMMSolver.ref,
      r <> ADMMSolver._reconstruction (ADMMSolver.self w) ->
      ADMMSolver.heap w' r = ADMMSolver.heap w r) /\
  exists solver,
    ADMMSolver.solvers_run
      (ADMMSolver.trace (ADMMSolver._run_reconstruction w)) = [solver] /\
    ADMMSolver.itk (ADMMSolver.reconstruction w') =
      ADMMSolver._get_itk_image_from_array_vec (ADMMSolver.self w')
        (fst (ADMMSolver.run_solver solver))
        (ADMMSolver.itk (ADMMSolver.reconstruction w)) /\
    ADMMSolver.sitk (ADMMSolver.reconstruction w') =
      ADMMSolver.get_sitk_from_itk_image
        (ADMMSolver.itk (ADMMSolver.reconstruction w')).
Proof.
  intros H.
  destruct (returns_constructs_one _ H) as (solver & _ & Hr & ->).
  destruct (reconstruction_world_after w solver) as [Hself Hrec].
  split; [now rewrite Hself|]. split; [now rewrite Hrec|]. split.
  - intros r Hne. now apply heap_world_after.
  - exists solver. split; [exact Hr|]. rewrite Hrec, Hself. now split.
Qed.

(** On the small instance the reconstruction volume is object 0 before and
    after the run, and keeps its name. *)
Lemma run_keeps_reconstruction_identity_witness :
  exists w' : @ADMMSolver.World Instance.data,
    ADMMSolver.outcome
      (@ADMMSolver._run_reconstruction Instance.data Instance.collaborators
         Instance.world0) = Ok w' /\
    ADMMSolver._reconstruction (ADMMSolver.self w') = 0%nat /\
    @ADMMSolver.attributes Instance.data (ADMMSolver.reconstruction w')
      = "HR_volume"%string /\
    ADMMSolver.heap w' 1%nat = Instance.heap0 1%nat.
Proof.
  eexists.
  destruct (@run_keeps_reconstruction_identity Instance.data
              Instance.collaborators Instance.world0 _ eq_refl)
    as (Hid & Hattr & Hframe & _).
  split; [reflexivity|]. split; [exact Hid|]. split; [exact Hattr|].
  apply Hframe. discriminate.
Defined.




(* ================================================================== *)
(** * What a run checks *)
(* ================================================================== *)




(* ================================================================== *)
(** * The setting specific filename: what it tells apart *)
(* ================================================================== *)


(** Nor two solvers whose minimizer names are "a.b" and "apb": the dot is
    printed as the letter p. *)
Lemma filename_confuses_dot_and_p :
  Instance.self_dot <> Instance.self_p /\
  ADMMSolver.get_setting_specific_filename Instance.self_dot "SRR_" =
  ADMMSolver.get_setting_specific_filename Instance.self_p "SRR_".
Proof.
  split; [|reflexivity].
  intros Heq.
  apply (f_equal (@ADMMSolver._minimizer Instance.data)) in Heq.
  discriminate.
Qed.





(* ================================================================== *)
(** * Resampling *)
(* ================================================================== *)

Section Resampling.

Import MyImageProcessingFunctions.

Lemma result_all_map_in {A B : Type} (f : A -> result B) (P : B -> Prop)
  (l : list A) (out : list B) :
  (forall a b, f a = Ok b -> P b) ->
  result_all (map f l) = Ok out -> Forall P out.
Proof.
  intros Hf. revert out.
  induction l as [|a l IH]; simpl; intros out H.
  - injection H as <-. constructor.
  - destruct (f a) as [b|e] eqn:Hfa; simpl in H; [|discriminate].
    destruct (result_all (map f l)) as [bl|e]; simpl in H; [|discriminate].
    injection H as <-. constructor; [now apply (Hf a) | now apply IH].
Qed.

Lemma ravel_get_in (a : ndarray2) (idx : Z) (v : Q) :
  ravel_get a idx = Ok v -> In v (ravel a).
Proof.
  unfold ravel_get.
  destruct (Py.index _ idx) as [k|]; [|discriminate].
  destruct (nth_error (ravel a) k) as [u|] eqn:Hk; [|discriminate].
  intros [= <-]. now apply nth_error_In in Hk.
Qed.

(** With the default arguments every pixel of the warped image is a pixel
    of the floating image: a position outside the floating image is given
    the intensity found in row 0 or column 0. *)
Lemma resampling_default_copies_pixels (reference floating : ndarray2)
  (t : matrix3) (warped : ndarray2) :
  resampling_default reference floating t = Ok warped ->
  shape0 warped = shape0 reference /\
  shape1 warped = shape1 reference /\
  Forall (fun v => In v (ravel floating)) (ravel warped).
Proof.
  unfold resampling_default, resampling, resampling_fast. cbn.
  rewrite map_map.
  destruct (result_all _) as [vs|e] eqn:Hall; cbn; [|discriminate].
  intros [= <-]. cbn. repeat split.
  eapply result_all_map_in; [|exact Hall].
  intros ij v. apply ravel_get_in.
Qed.

(** The pixel-by-pixel branches do write the padding value for a position
    outside the floating image. *)
Lemma nearest_pixel_outside (floating : ndarray2) (t : matrix3)
  (padding : Q) (i j : nat) :
  inside floating (transform t i j) = false ->
  nearest_pixel floating t padding i j = Ok padding.
Proof.
  unfold inside, nearest_pixel.
  destruct (transform t i j) as [p0 p1]. cbn. now intros ->.
Qed.

Lemma bilinear_pixel_outside (floating : ndarray2) (t : matrix3)
  (padding : Q) (i j : nat) :
  inside floating (transform t i j) = false ->
  bilinear_pixel floating t padding i j = Ok padding.
Proof.
  unfold inside, bilinear_pixel, Qltb.
  destruct (transform t i j) as [p0 p1]. cbn. intros H.
  destruct (Qle_bool 0 p0); [|reflexivity].
  destruct (Qle_bool 0 p1); [|reflexivity]. cbn in *.
  destruct (Qle_bool p0 (inject_Z (Z.of_nat (shape0 floating) - 1)))
    eqn:H0.
  - cbn in H.
    assert (Hlt : Qle_bool
                    (inject_Z (Z.of_nat (shape1 floating) - 1)) p1 = true).
    { destruct (Qle_bool (inject_Z (Z.of_nat (shape1 floating) - 1)) p1)
        eqn:H1; [reflexivity|].
      exfalso. 
      assert (Hnle : ~ inject_Z (Z.of_nat (shape1 floating) - 1) <= p1).
      { intros Hle. apply Qle_bool_iff in Hle. congruence. }
      apply Qnot_le_lt in Hnle. apply Qlt_le_weak in Hnle.
      apply Qle_bool_iff in Hnle. congruence. }
    rewrite Hlt. cbn. now rewrite andb_false_r.
  - assert (Hlt : Qle_bool
                    (inject_Z (Z.of_nat (shape0 floating) - 1)) p0 = true).
    { destruct (Qle_bool (inject_Z (Z.of_nat (shape0 floating) - 1)) p0)
        eqn:H1; [reflexivity|].
      exfalso.
      assert (Hnle : ~ inject_Z (Z.of_nat (shape0 floating) - 1) <= p0).
      { intros Hle. apply Qle_bool_iff in Hle. congruence. }
      apply Qnot_le_lt in Hnle. apply Qlt_le_weak in Hnle.
      apply Qle_bool_iff in Hnle. congruence. }
    rewrite Hlt. reflexivity.
Qed.

(** *** The pixel-by-pixel loops *)

Lemma fold_result_raised {S : Type} (body : nat -> S -> result S)
  (l : list nat) (e : Py.exn) :
  fold_left (fun acc k => result_bind acc (body k)) l (Err e) = Err e.
Proof. induction l as [|k l IH]; simpl; [reflexivity | exact IH]. Qed.

(** An invariant of a [for] loop that returns holds at its end. *)
Lemma for_range_invariant {S : Type} (P : nat -> S -> Prop) (n : nat)
  (body : nat -> S -> result S) (s s' : S) :
  P 0%nat s ->
  (forall k t t', (k < n)%nat -> P k t -> body k t = Ok t' -> P (Datatypes.S k) t') ->
  for_range n body s = Ok s' ->
  P n s'.
Proof.
  unfold for_range. intros H0 Hstep.
  assert (Hgen : forall m a t,
             (a + m = n)%nat -> P a t ->
             fold_left (fun acc k => result_bind acc (body k)) (seq a m) (Ok t)
               = Ok s' ->
             P n s').
  { induction m as [|m IH]; intros a t Ham Ha Hf.
    - simpl in Hf. injection Hf as <-. now replace n with a by lia.
    - simpl in Hf. destruct (body a t) as [t'|e] eqn:Hb.
      + apply (IH (Datatypes.S a) t'); [lia | | exact Hf].
        apply (Hstep a t); [lia | exact Ha | exact Hb].
      + now rewrite fold_result_raised in Hf. }
  apply (Hgen n 0%nat s); [lia | exact H0].
Qed.

Lemma list_set_length {A : Type} (l : list A) (k : nat) (v : A) :
  List.length (list_set l k v) = List.length l.
Proof.
  revert k. induction l as [|x l IH]; intros [|k]; simpl; auto.
Qed.

Lemma list_set_same {A : Type} (l : list A) (k : nat) (v : A) :
  (k < List.length l)%nat -> nth_error (list_set l k v) k = Some v.
Proof.
  revert k. induction l as [|x l IH]; intros [|k]; simpl; intros H;
    try lia; [reflexivity | apply IH; lia].
Qed.

Lemma list_set_other {A : Type} (l : list A) (k k' : nat) (v : A) :
  k <> k' -> nth_error (list_set l k v) k' = nth_error l k'.
Proof.
  revert k k'. induction l as [|x l IH]; intros [|k] [|k'] H; simpl;
    try reflexivity; try congruence.
  apply IH. congruence.
Qed.

(** Cells of a row-major array are told apart by their index. *)
Lemma cell_index_injective (n1 i j i' j' : nat) :
  (j < n1)%nat -> (j' < n1)%nat ->
  (i * n1 + j = i' * n1 + j')%nat -> i = i' /\ j = j'.
Proof.
  intros Hj Hj' H.
  destruct (Nat.lt_trichotomy i i') as [Hlt|[->|Hlt]].
  - assert ((i + 1) * n1 <= i' * n1)%nat by (apply Nat.mul_le_mono_r; lia).
    lia.
  - split; [reflexivity | lia].
  - assert ((i' + 1) * n1 <= i * n1)%nat by (apply Nat.mul_le_mono_r; lia).
    lia.
Qed.

Lemma cell_index_in_range (n0 n1 i j : nat) :
  (i < n0)%nat -> (j < n1)%nat -> (i * n1 + j < n0 * n1)%nat.
Proof.
  intros Hi Hj.
  assert ((i + 1) * n1 <= n0 * n1)%nat by (apply Nat.mul_le_mono_r; lia).
  lia.
Qed.

(** The loops write into every cell of the reference grid the value
    computed for that cell. *)
Lemma pixel_loops_cells (reference : ndarray2)
  (pixel : nat -> nat -> result Q) (warped : ndarray2) :
  pixel_loops reference pixel = Ok warped ->
  shape0 warped = shape0 reference /\
  shape1 warped = shape1 reference /\
  forall i j, (i < shape0 reference)%nat -> (j < shape1 reference)%nat ->
    exists v, pixel i j = Ok v /\
              nth_error (ravel warped) (i * shape1 reference + j) = Some v.
Proof.
  set (n0 := shape0 reference). set (n1 := shape1 reference).
  unfold pixel_loops. fold n0 n1. intros H.
  pose (Outer := fun (j : nat) (W : ndarray2) =>
    shape0 W = n0 /\ shape1 W = n1 /\
    List.length (ravel W) = (n0 * n1)%nat /\
    forall i' j', (i' < n0)%nat -> (j' < j)%nat ->
      exists v, pixel i' j' = Ok v /\
                nth_error (ravel W) (i' * n1 + j') = Some v).
  assert (HO : Outer n1 warped).
  { eapply (@for_range_invariant _ Outer); [| |exact H].
    - repeat split; [apply repeat_length | intros; lia].
    - intros j W0 W Hj (Hs0 & Hs1 & Hlen & Hcells) Hinner.
      pose (Inner := fun (i : nat) (V : ndarray2) =>
        shape0 V = n0 /\ shape1 V = n1 /\
        List.length (ravel V) = (n0 * n1)%nat /\
        (forall i', (i' < i)%nat ->
           exists v, pixel i' j = Ok v /\
                     nth_error (ravel V) (i' * n1 + j) = Some v) /\
        (forall i' j', (j' < n1)%nat -> j' <> j ->
           nth_error (ravel V) (i' * n1 + j') =
           nth_error (ravel W0) (i' * n1 + j'))).
      assert (HI : Inner n0 W).
      { eapply (@for_range_invariant _ Inner); [| |exact Hinner].
        - repeat split; try assumption. intros; lia.
        - intros i V V' Hi (Hv0 & Hv1 & Hvl & Hdone & Hrest) Hbody.
          destruct (pixel i j) as [v|e] eqn:Hp; simpl in Hbody;
            [|discriminate].
          injection Hbody as <-. unfold Inner, setitem2; cbn. rewrite Hv1.
          repeat split; try assumption.
          + now rewrite list_set_length.
          + intros i' Hi'.
            destruct (Nat.eq_dec i' i) as [->|Hne].
            * exists v. split; [exact Hp|].
              apply list_set_same. rewrite Hvl.
              now apply cell_index_in_range.
            * destruct (Hdone i') as (v' & Hp' & Hn'); [lia|].
              exists v'. split; [exact Hp'|].
              rewrite list_set_other; [exact Hn'|].
              intros Heq. apply cell_index_injective in Heq; [|lia ..].
              destruct Heq as [Heq _]. congruence.
          + intros i' j' Hj' Hne.
            rewrite list_set_other; [now apply Hrest|].
            intros Heq. apply cell_index_injective in Heq; [|lia ..].
            destruct Heq as [_ Heq]. congruence. }
      destruct HI as (Hw0 & Hw1 & Hwl & Hcol & Hrest).
      repeat split; try assumption.
      intros i' j' Hi' Hj'.
      destruct (Nat.eq_dec j' j) as [->|Hne].
      + now apply Hcol.
      + rewrite Hrest; [|lia | exact Hne]. apply Hcells; lia. }
  destruct HO as (H0 & H1 & _ & Hcells).
  repeat split; try assumption.
Qed.

(** A cell of the flattened grid. *)
Lemma mgrid_rows_nth (n1 m a i j : nat) :
  (i < m)%nat -> (j < n1)%nat ->
  nth_error (flat_map (fun i => map (fun j => (i, j)) (seq 0 n1)) (seq a m))
    (i * n1 + j) = Some ((a + i)%nat, j).
Proof.
  revert a i. induction m as [|m IH]; intros a i Hi Hj; [lia|].
  simpl. destruct i as [|i].
  - simpl. rewrite nth_error_app1 by (now rewrite length_map, length_seq).
    rewrite nth_error_map, nth_error_seq.
    destruct (Nat.ltb_spec j n1); [|lia].
    simpl. now rewrite Nat.add_0_r.
  - rewrite nth_error_app2 by (rewrite length_map, length_seq; simpl; lia).
    rewrite length_map, length_seq.
    replace (Datatypes.S i * n1 + j - n1)%nat with (i * n1 + j)%nat
      by (simpl; lia).
    rewrite IH by lia. f_equal. f_equal. lia.
Qed.

Lemma mgrid_nth (n0 n1 i j : nat) :
  (i < n0)%nat -> (j < n1)%nat ->
  nth_error (mgrid n0 n1) (i * n1 + j) = Some (i, j).
Proof. intros Hi Hj. unfold mgrid. now rewrite mgrid_rows_nth. Qed.

Lemma result_all_nth {A B : Type} (f : A -> result B) (l : list A)
  (out : list B) (k : nat) (a : A) :
  result_all (map f l) = Ok out ->
  nth_error l k = Some a ->
  exists b, f a = Ok b /\ nth_error out k = Some b.
Proof.
  revert out k. induction l as [|x l IH]; intros out k H Hk.
  - destruct k; discriminate.
  - simpl in H. destruct (f x) as [b|e] eqn:Hfx; simpl in H; [|discriminate].
    destruct (result_all (map f l)) as [bl|e] eqn:Hall; simpl in H;
      [|discriminate].
    injection H as <-. destruct k as [|k]; simpl in Hk |- *.
    + injection Hk as <-. now exists b.
    + now apply IH.
Qed.

(** With the default arguments the warped pixel [(i, j)] is the element of
    [floating.ravel()] at the index computed from the reset coordinates. *)
Lemma resampling_default_cells (reference floating : ndarray2)
  (t : matrix3) (warped : ndarray2) (i j : nat) :
  resampling_default reference floating t = Ok warped ->
  (i < shape0 reference)%nat -> (j < shape1 reference)%nat ->
  exists v,
    ravel_get floating (fast_index floating t i j) = Ok v /\
    nth_error (ravel warped) (i * shape1 reference + j) = Some v.
Proof.
  unfold resampling_default, resampling, resampling_fast. cbn.
  rewrite map_map.
  destruct (result_all _) as [vs|e] eqn:Hall; cbn; [|discriminate].
  intros [= <-] Hi Hj. cbn.
  apply (result_all_nth _ _ _ Hall (mgrid_nth Hi Hj)).
Qed.


Lemma clamp_to_zero_inside (n : nat) (v : Z) :
  (0 <= v < Z.of_nat n)%Z -> clamp_to_zero n v = v.
Proof.
  unfold clamp_to_zero. intros H.
  destruct (Z.ltb_spec v 0); [lia|].
  destruct (Z.geb_spec v (Z.of_nat n)); [lia | reflexivity].
Qed.


(** With [order=1], and in the pixel-by-pixel loop of [order=0], every
    reference pixel that maps outside the floating image receives the
    padding value. *)
Lemma resampling_bilinear_pads (reference floating : ndarray2)
  (t : matrix3) (padding : Q) (warped : ndarray2) (i j : nat) :
  resampling reference floating t 1%Z padding = Ok warped ->
  (i < shape0 reference)%nat -> (j < shape1 reference)%nat ->
  inside floating (transform t i j) = false ->
  nth_error (ravel warped) (i * shape1 reference + j) = Some padding.
Proof.
  unfold resampling. cbn. intros H Hi Hj Hout.
  destruct (pixel_loops_cells _ _ H) as (_ & _ & Hcells).
  destruct (Hcells i j Hi Hj) as (v & Hp & Hn).
  rewrite (bilinear_pixel_outside _ _ _ _ _ Hout) in Hp.
  now injection Hp as <-.
Qed.

Lemma pixel_loops_nearest_pads (reference floating : ndarray2)
  (t : matrix3) (padding : Q) (warped : ndarray2) (i j : nat) :
  pixel_loops reference (nearest_pixel floating t padding) = Ok warped ->
  (i < shape0 reference)%nat -> (j < shape1 reference)%nat ->
  inside floating (transform t i j) = false ->
  nth_error (ravel warped) (i * shape1 reference + j) = Some padding.
Proof.
  intros H Hi Hj Hout.
  destruct (pixel_loops_cells _ _ H) as (_ & _ & Hcells).
  destruct (Hcells i j Hi Hj) as (v & Hp & Hn).
  rewrite (nearest_pixel_outside _ _ _ _ _ Hout) in Hp.
  now injection Hp as <-.
Qed.

End Resampling.

(** C5, on the code.  With the default arguments, the floating image
    [[1, 2], [3, 4]] and the translation by one column, the reference
    pixels (0, 1) and (1, 1) map to column 2, outside the floating image,
    and receive the intensities 1 and 3 of column 0 instead of the padding
    value 0, which the pixel-by-pixel loop for the same order writes. *)
Theorem resampling_outside_takes_column_zero :
  MyImageProcessingFunctions.inside Instance.floating0
    (MyImageProcessingFunctions.transform Instance.shift_column 0 1) = false /\
  MyImageProcessingFunctions.inside Instance.floating0
    (MyImageProcessingFunctions.transform Instance.shift_column 1 1) = false /\
  MyImageProcessingFunctions.resampling_default Instance.reference0
    Instance.floating0 Instance.shift_column =
    Ok (MyImageProcessingFunctions.mk_ndarray2 2 2 [2; 1; 4; 3]%Q) /\
  MyImageProcessingFunctions.pixel_loops Instance.reference0
    (MyImageProcessingFunctions.nearest_pixel Instance.floating0
       Instance.shift_column 0%Q) =
    Ok (MyImageProcessingFunctions.mk_ndarray2 2 2 [2; 0; 4; 0]%Q).
Proof.
  repeat split.
Qed.

(* ================================================================== *)
(** * The gradient operators handed to the inner solver *)
(* ================================================================== *)

Section GradientWrappers.

Import ADMMSolver.

Context {D : PyData} {C : Collaborators}.

(** [B] and [B_adj] reshape their argument, apply the operators obtained
    from [LinearOperators3D] and flatten the result. *)
Lemma B_returns (w : World) (A A_adj : operator) (b x0 : vec)
  (x_scale : pyfloat) (grad grad_adj : ndarray -> ndarray)
  (X_shape Z_shape : list nat) (x y : vec) :
  admm.B (make_solver w A A_adj b x0 x_scale grad grad_adj X_shape Z_shape) x
    = Ok y ->
  y = flatten (grad (mk_ndarray X_shape x)).
Proof.
  cbn. destruct (reshape x X_shape) as [X|e] eqn:Hre; cbn; [|discriminate].
  intros [= <-]. unfold reshape in Hre.
  destruct (Nat.eqb _ _); [|discriminate]. now injection Hre as <-.
Qed.

Lemma B_adj_returns (w : World) (A A_adj : operator) (b x0 : vec)
  (x_scale : pyfloat) (grad grad_adj : ndarray -> ndarray)
  (X_shape Z_shape : list nat) (z u : vec) :
  admm.B_adj
    (make_solver w A A_adj b x0 x_scale grad grad_adj X_shape Z_shape) z
    = Ok u ->
  u = flatten (grad_adj (mk_ndarray Z_shape z)).
Proof.
  cbn. destruct (reshape z Z_shape) as [Z|e] eqn:Hre; cbn; [|discriminate].
  intros [= <-]. unfold reshape in Hre.
  destruct (Nat.eqb _ _); [|discriminate]. now injection Hre as <-.
Qed.

(** Whatever pairing the gradient operators of [LinearOperators3D] are
    adjoint for on arrays, [B] and [B_adj] are adjoint for on flat
    vectors: the wrappers add nothing and lose nothing. *)
Lemma B_adjoint_of_grad_adjoint {T : Type} (pair_Z pair_X : vec -> vec -> T)
  (w : World) (A A_adj : operator) (b x0 : vec) (x_scale : pyfloat)
  (grad grad_adj : ndarray -> ndarray) (X_shape Z_shape : list nat) :
  (forall X Z : ndarray,
      shape X = X_shape -> shape Z = Z_shape ->
      pair_Z (flatten (grad X)) (flatten Z) =
      pair_X (flatten X) (flatten (grad_adj Z))) ->
  forall x z y u : vec,
    admm.B (make_solver w A A_adj b x0 x_scale grad grad_adj X_shape Z_shape)
      x = Ok y ->
    admm.B_adj
      (make_solver w A A_adj b x0 x_scale grad grad_adj X_shape Z_shape)
      z = Ok u ->
    pair_Z y z = pair_X x u.
Proof.
  intros Hadj x z y u Hy Hu.
  apply B_returns in Hy. apply B_adj_returns in Hu. subst y u.
  now apply (Hadj (mk_ndarray X_shape x) (mk_ndarray Z_shape z)).
Qed.

End GradientWrappers.

(* ================================================================== *)
(** * More about resampling *)
(* ================================================================== *)

Section ResamplingTotal.

Import MyImageProcessingFunctions.

Lemma mgrid_length (n0 n1 : nat) :
  List.length (mgrid n0 n1) = (n0 * n1)%nat.
Proof.
  unfold mgrid.
  assert (H : forall a,
             List.length
               (flat_map (fun i => map (fun j => (i, j)) (seq 0 n1))
                  (seq a n0)) = (n0 * n1)%nat).
  { induction n0 as [|n0 IH]; intros a; simpl; [reflexivity|].
    now rewrite length_app, length_map, length_seq, IH. }
  apply H.
Qed.

Lemma result_all_total {A B : Type} (f : A -> result B) (l : list A) :
  (forall a, In a l -> exists b, f a = Ok b) ->
  exists out, result_all (map f l) = Ok out /\
              List.length out = List.length l.
Proof.
  induction l as [|a l IH]; intros H; simpl.
  - now exists [].
  - destruct (H a (or_introl eq_refl)) as [b Hb].
    destruct IH as (out & Hout & Hlen); [intros; apply H; now right|].
    exists (b :: out). rewrite Hb, Hout. simpl. now rewrite Hlen.
Qed.

Lemma result_all_raises_first {A B : Type} (f : A -> result B) (a : A)
  (l : list A) (e : Py.exn) :
  f a = Err e -> result_all (map f (a :: l)) = Err e.
Proof. intros H. simpl. now rewrite H. Qed.

Lemma clamp_to_zero_range (n : nat) (v : Z) :
  (0 < n)%nat -> (0 <= clamp_to_zero n v < Z.of_nat n)%Z.
Proof.
  intros Hn. unfold clamp_to_zero.
  destruct (Z.ltb_spec v 0).
  - destruct (Z.geb_spec 0 (Z.of_nat n)); lia.
  - destruct (Z.geb_spec v (Z.of_nat n)); lia.
Qed.

Lemma fast_index_range (floating : ndarray2) (t : matrix3) (i j : nat) :
  (0 < shape0 floating)%nat -> (0 < shape1 floating)%nat ->
  (0 <= fast_index floating t i j
   < Z.of_nat (shape0 floating * shape1 floating))%Z.
Proof.
  intros H0 H1. unfold fast_index.
  destruct (transform t i j) as [p0 p1].
  pose proof (clamp_to_zero_range (np_round p0) H0) as Hr0.
  pose proof (clamp_to_zero_range (np_round p1) H1) as Hr1.
  set (r0 := clamp_to_zero (shape0 floating) (np_round p0)) in *.
  set (r1 := clamp_to_zero (shape1 floating) (np_round p1)) in *.
  rewrite Nat2Z.inj_mul.
  assert ((r0 + 1) * Z.of_nat (shape1 floating)
          <= Z.of_nat (shape0 floating) * Z.of_nat (shape1 floating))%Z
    by (apply Z.mul_le_mono_nonneg_r; lia).
  assert (0 <= r0 * Z.of_nat (shape1 floating))%Z
    by (apply Z.mul_nonneg_nonneg; lia).
  lia.
Qed.

Lemma ravel_get_in_range (a : ndarray2) (idx : Z) :
  (0 <= idx < Z.of_nat (List.length (ravel a)))%Z ->
  exists v, ravel_get a idx = Ok v /\
            nth_error (ravel a) (Z.to_nat idx) = Some v.
Proof.
  intros H. unfold ravel_get, Py.index.
  destruct (Z.leb_spec 0 idx); [|lia].
  destruct (Z.ltb_spec idx (Z.of_nat (List.length (ravel a)))); [|lia].
  cbn.
  destruct (nth_error (ravel a) (Z.to_nat idx)) as [v|] eqn:Hn.
  - now exists v.
  - apply nth_error_None in Hn. lia.
Qed.

Lemma ravel_get_nonnegative (a : ndarray2) (idx : Z) (v : Q) :
  (0 <= idx)%Z -> ravel_get a idx = Ok v ->
  nth_error (ravel a) (Z.to_nat idx) = Some v.
Proof.
  intros H. unfold ravel_get, Py.index.
  destruct (Z.leb_spec 0 idx); [|lia].
  destruct (Z.ltb_spec idx (Z.of_nat (List.length (ravel a)))); cbn.
  - destruct (nth_error (ravel a) (Z.to_nat idx)); [|discriminate].
    now intros [= <-].
  - destruct (Z.leb_spec (- Z.of_nat (List.length (ravel a))) idx);
      destruct (Z.ltb_spec idx 0); cbn; try discriminate; lia.
Qed.

End ResamplingTotal.

(** The fast branch is total on a floating image that has pixels. *)
Lemma resampling_default_total
  (reference floating : MyImageProcessingFunctions.ndarray2)
  (t : MyImageProcessingFunctions.matrix3) :
  MyImageProcessingFunctions.well_formed floating ->
  (0 < MyImageProcessingFunctions.shape0 floating)%nat ->
  (0 < MyImageProcessingFunctions.shape1 floating)%nat ->
  exists warped,
    MyImageProcessingFunctions.resampling_default reference floating t
      = Ok warped /\
    MyImageProcessingFunctions.shape0 warped =
      MyImageProcessingFunctions.shape0 reference /\
    MyImageProcessingFunctions.shape1 warped =
      MyImageProcessingFunctions.shape1 reference /\
    MyImageProcessingFunctions.well_formed warped.
Proof.
  intros Hwf H0 H1.
  unfold MyImageProcessingFunctions.resampling_default,
    MyImageProcessingFunctions.resampling,
    MyImageProcessingFunctions.resampling_fast. cbn.
  rewrite map_map.
  destruct (result_all_total
              (fun ij =>
                 MyImageProcessingFunctions.ravel_get floating
                   (MyImageProcessingFunctions.fast_index floating t
                      (fst ij) (snd ij)))
              (MyImageProcessingFunctions.mgrid
                 (MyImageProcessingFunctions.shape0 reference)
                 (MyImageProcessingFunctions.shape1 reference)))
    as (out & Hout & Hlen).
  - intros [i j] _. cbn.
    destruct (@ravel_get_in_range floating
                (MyImageProcessingFunctions.fast_index floating t i j))
      as (v & Hv & _).
    + rewrite Hwf. now apply fast_index_range.
    + now exists v.
  - rewrite Hout. cbn. eexists. split; [reflexivity|]. cbn.
    repeat split. unfold MyImageProcessingFunctions.well_formed. cbn.
    now rewrite Hlen, mgrid_length.
Qed.

(** With the default arguments and a floating image that is not empty, the
    call never raises, whatever the transformation: it returns an array of
    the shape of the reference image. *)
Theorem resampling_default_returns
  (reference floating : MyImageProcessingFunctions.ndarray2)
  (t : MyImageProcessingFunctions.matrix3) :
  MyImageProcessingFunctions.well_formed floating ->
  (0 < MyImageProcessingFunctions.shape0 floating)%nat ->
  (0 < MyImageProcessingFunctions.shape1 floating)%nat ->
  exists warped,
    MyImageProcessingFunctions.resampling_default reference floating t
      = Ok warped /\
    MyImageProcessingFunctions.shape0 warped =
      MyImageProcessingFunctions.shape0 reference /\
    MyImageProcessingFunctions.shape1 warped =
      MyImageProcessingFunctions.shape1 reference /\
    MyImageProcessingFunctions.well_formed warped.
Proof.
  intros Hwf H0 H1.
  exact (@resampling_default_total reference floating t Hwf H0 H1).
Qed.

(** With the default arguments, an empty floating image and a reference
    image that is not empty, the call raises [IndexError]. *)
Theorem resampling_default_empty_floating
  (reference floating : MyImageProcessingFunctions.ndarray2)
  (t : MyImageProcessingFunctions.matrix3) :
  MyImageProcessingFunctions.ravel floating = [] ->
  (0 < MyImageProcessingFunctions.shape0 reference)%nat ->
  (0 < MyImageProcessingFunctions.shape1 reference)%nat ->
  MyImageProcessingFunctions.resampling_default reference floating t
    = Err (Py.Raise "IndexError").
Proof.
  intros Hempty H0 H1.
  unfold MyImageProcessingFunctions.resampling_default,
    MyImageProcessingFunctions.resampling,
    MyImageProcessingFunctions.resampling_fast. cbn.
  rewrite map_map.
  destruct (MyImageProcessingFunctions.shape0 reference) as [|n0]; [lia|].
  destruct (MyImageProcessingFunctions.shape1 reference) as [|n1]; [lia|].
  assert (Hget : forall idx,
             MyImageProcessingFunctions.ravel_get floating idx
             = Err (Py.Raise "IndexError")).
  { intros idx. unfold MyImageProcessingFunctions.ravel_get.
    rewrite Hempty. cbn [List.length Z.of_nat]. unfold Py.index.
    destruct (Z.leb_spec 0 idx); destruct (Z.ltb_spec idx 0);
      destruct (Z.leb_spec (- 0) idx); cbn; try reflexivity; lia. }
  unfold MyImageProcessingFunctions.mgrid. cbn [seq flat_map map app].
  cbn [result_all]. now rewrite Hget.
Qed.

Section Rounding.

Import MyImageProcessingFunctions.

Lemma np_round_compat (p q : Q) : p == q -> np_round p = np_round q.
Proof.
  intros H. unfold np_round.
  assert (Hf : Qfloor p = Qfloor q) by now rewrite H.
  assert (Hc : Qcompare (p - inject_Z (Qfloor p)) (1 # 2) =
               Qcompare (q - inject_Z (Qfloor q)) (1 # 2)).
  { rewrite Hf. now rewrite H. }
  now rewrite Hc, Hf.
Qed.

Lemma np_round_inject_Z (z : Z) : np_round (inject_Z z) = z.
Proof.
  unfold np_round. rewrite Qfloor_Z.
  assert (H : Qcompare (inject_Z z - inject_Z z) (1 # 2) = Lt).
  { rewrite <- Qlt_alt.
    unfold Qlt, Qminus, Qplus, Qopp, inject_Z; simpl. lia. }
  now rewrite H.
Qed.





End Rounding.


Section IdentityResampling.

Import MyImageProcessingFunctions.

Lemma transform_identity (i j : nat) :
  fst (transform identity3 i j) == inject_Z (Z.of_nat i) /\
  snd (transform identity3 i j) == inject_Z (Z.of_nat j).
Proof. cbn. split; ring. Qed.

Lemma fast_index_identity (floating : ndarray2) (i j : nat) :
  (i < shape0 floating)%nat -> (j < shape1 floating)%nat ->
  fast_index floating identity3 i j =
  Z.of_nat (i * shape1 floating + j).
Proof.
  intros Hi Hj. unfold fast_index.
  destruct (transform_identity i j) as [H0 H1].
  destruct (transform identity3 i j) as [p0 p1]. cbn [fst snd] in H0, H1.
  rewrite (np_round_compat H0), (np_round_compat H1), !np_round_inject_Z.
  rewrite !clamp_to_zero_inside by lia. lia.
Qed.

(** Every index below [n0 * n1] is the index of a cell. *)
Lemma cell_of_index (n0 n1 k : nat) :
  (k < n0 * n1)%nat ->
  exists i j, (i < n0)%nat /\ (j < n1)%nat /\ k = (i * n1 + j)%nat.
Proof.
  intros Hk.
  assert (Hn1 : n1 <> 0%nat) by (intros ->; lia).
  exists (k / n1)%nat, (k mod n1)%nat. repeat split.
  - apply Nat.Div0.div_lt_upper_bound. lia.
  - now apply Nat.mod_upper_bound.
  - rewrite (Nat.div_mod_eq k n1) at 1. lia.
Qed.

End IdentityResampling.

(** With the default arguments and the identity as transformation, the
    warped image is the floating image itself, whenever the reference image
    has the shape of the floating image (its intensities are not looked
    at). *)
Theorem resampling_default_identity
  (reference floating : MyImageProcessingFunctions.ndarray2) :
  MyImageProcessingFunctions.well_formed floating ->
  MyImageProcessingFunctions.shape0 reference =
    MyImageProcessingFunctions.shape0 floating ->
  MyImageProcessingFunctions.shape1 reference =
    MyImageProcessingFunctions.shape1 floating ->
  MyImageProcessingFunctions.resampling_default reference floating
    MyImageProcessingFunctions.identity3 = Ok floating.
Proof.
  intros Hwf Hs0 Hs1.
  assert (Hcase : (MyImageProcessingFunctions.shape0 floating *
                   MyImageProcessingFunctions.shape1 floating = 0)%nat \/
                  ((0 < MyImageProcessingFunctions.shape0 floating)%nat /\
                   (0 < MyImageProcessingFunctions.shape1 floating)%nat))
    by nia.
  destruct Hcase as [Hzero|[H0 H1]].
  - (* an empty image *)
    unfold MyImageProcessingFunctions.resampling_default,
      MyImageProcessingFunctions.resampling,
      MyImageProcessingFunctions.resampling_fast. cbn.
    assert (Hg : MyImageProcessingFunctions.mgrid
                   (MyImageProcessingFunctions.shape0 reference)
                   (MyImageProcessingFunctions.shape1 reference) = []).
    { apply length_zero_iff_nil. now rewrite mgrid_length, Hs0, Hs1. }
    rewrite Hg. cbn. rewrite Hs0, Hs1.
    unfold MyImageProcessingFunctions.well_formed in Hwf.
    rewrite Hzero in Hwf. apply length_zero_iff_nil in Hwf.
    destruct floating as [n0 n1 r]. cbn in *. now subst r.
  - destruct (resampling_default_total reference
                MyImageProcessingFunctions.identity3 Hwf H0 H1)
      as (warped & Hw & Hw0 & Hw1 & Hwwf).
    rewrite Hw. f_equal.
    assert (Hr : MyImageProcessingFunctions.ravel warped =
                 MyImageProcessingFunctions.ravel floating).
    { apply nth_error_ext. intros k.
      unfold MyImageProcessingFunctions.well_formed in Hwf, Hwwf.
      destruct (Nat.lt_ge_cases k
                  (MyImageProcessingFunctions.shape0 floating *
                   MyImageProcessingFunctions.shape1 floating)) as [Hk|Hk].
      - destruct (cell_of_index _ _ Hk) as (i & j & Hi & Hj & ->).
        destruct (@resampling_default_cells reference floating
                    MyImageProcessingFunctions.identity3 warped i j Hw)
          as (v & Hget & Hnth); [lia | lia |].
        rewrite Hs1 in Hnth. rewrite Hnth.
        rewrite (fast_index_identity floating Hi Hj) in Hget.
        apply ravel_get_nonnegative in Hget; [|lia].
        now rewrite Nat2Z.id in Hget.
      - rewrite (proj2 (nth_error_None _ _)) by (rewrite Hwwf, Hw0, Hw1, Hs0, Hs1; exact Hk).
        symmetry. apply nth_error_None. now rewrite Hwf. }
    destruct warped as [w0 w1 wr], floating as [n0 n1 r]. cbn in *.
    congruence.
Qed.

Section Bilinear.

Import MyImageProcessingFunctions.






End Bilinear.



(* ================================================================== *)
(** * The change of origin *)
(* ================================================================== *)

(** Correcting the origin of the identity gives the identity. *)
Theorem origin_corrected_identity
  (array : MyImageProcessingFunctions.ndarray2) :
  MyImageProcessingFunctions.matrix_eq
    (MyImageProcessingFunctions.get_origin_corrected_transformation_2d array
       MyImageProcessingFunctions.identity3)
    MyImageProcessingFunctions.identity3.
Proof.
  unfold MyImageProcessingFunctions.get_origin_corrected_transformation_2d,
    MyImageProcessingFunctions.identity3, MyImageProcessingFunctions.dot,
    MyImageProcessingFunctions.matrix_eq.
  repeat split; ring.
Qed.


Section Centre.

Import MyImageProcessingFunctions.


End Centre.


(* ================================================================== *)
(** * The rectangular mask *)
(* ================================================================== *)

Section RectangularMask.

Import MyImageProcessingFunctions.

Lemma nth_error_combine_seq {A : Type} (l : list A) (a k : nat) :
  nth_error (combine (seq a (List.length l)) l) k =
  option_map (fun x => ((a + k)%nat, x)) (nth_error l k).
Proof.
  revert a k. induction l as [|x l IH]; intros a [|k]; simpl;
    try reflexivity.
  - now rewrite Nat.add_0_r.
  - rewrite IH. destruct (nth_error l k); simpl; [|reflexivity].
    do 2 f_equal. lia.
Qed.

Lemma update_slice_nth {A : Type} (start stop : Z) (f : A -> A)
  (l : list A) (k : nat) :
  nth_error (update_slice start stop f l) k =
  option_map
    (fun x => if in_slice (Z.of_nat (List.length l)) start stop k
              then f x else x)
    (nth_error l k).
Proof.
  unfold update_slice. rewrite nth_error_map, nth_error_combine_seq.
  destruct (nth_error l k); reflexivity.
Qed.

(** A slice with bounds that are not negative selects the indices between
    them. *)
Lemma in_slice_inclusive (n lo hi : Z) (k : nat) :
  (0 <= lo)%Z -> (0 <= hi)%Z -> (Z.of_nat k < n)%Z ->
  in_slice n lo (hi + 1) k = ((lo <=? Z.of_nat k)%Z && (Z.of_nat k <=? hi)%Z).
Proof.
  intros Hlo Hhi Hk. unfold in_slice, slice_bound.
  destruct (Z.ltb_spec lo 0); [lia|].
  destruct (Z.ltb_spec (hi + 1) 0); [lia|].
  destruct (Z.leb_spec (Z.min lo n) (Z.of_nat k));
    destruct (Z.leb_spec lo (Z.of_nat k));
    destruct (Z.ltb_spec (Z.of_nat k) (Z.min (hi + 1) n));
    destruct (Z.leb_spec (Z.of_nat k) hi); cbn; try reflexivity; lia.
Qed.

(** A slice that stops at 0 selects nothing. *)
Lemma in_slice_stop_zero (n lo : Z) (k : nat) :
  (0 <= n)%Z -> in_slice n lo 0 k = false.
Proof.
  intros Hn. unfold in_slice, slice_bound. cbn.
  destruct (Z.ltb_spec (Z.of_nat k) (Z.min 0 n)); [lia|].
  apply andb_false_r.
Qed.

(** Every voxel of the mask, in terms of the three slices. *)
Lemma rectangular_mask_voxel {Info : Type} (image_sitk : sitk_volume Info)
  (x_range y_range z_range : Z * Z) (z y x : nat)
  (plane : list (list Q)) (line : list Q) (u : Q) :
  nth_error (nda image_sitk) z = Some plane ->
  nth_error plane y = Some line ->
  nth_error line x = Some u ->
  voxel (nda (get_rectangular_mask image_sitk x_range y_range z_range)) z y x
  = Some
      (if in_slice (Z.of_nat (List.length (nda image_sitk)))
            (fst z_range) (snd z_range + 1) z
          && in_slice (Z.of_nat (List.length plane))
               (fst y_range) (snd y_range + 1) y
          && in_slice (Z.of_nat (List.length line))
               (fst x_range) (snd x_range + 1) x
       then 1 else 0).
Proof.
  intros Hz Hy Hx. unfold voxel, get_rectangular_mask. cbn [nda].
  rewrite update_slice_nth, nth_error_map, Hz. cbn [option_map].
  rewrite !length_map.
  destruct (in_slice (Z.of_nat (List.length (nda image_sitk)))
              (fst z_range) (snd z_range + 1) z).
  - rewrite update_slice_nth, nth_error_map, Hy. cbn [option_map].
    rewrite !length_map.
    destruct (in_slice (Z.of_nat (List.length plane))
                (fst y_range) (snd y_range + 1) y).
    + rewrite update_slice_nth, nth_error_map, Hx. cbn [option_map].
      rewrite !length_map.
      now destruct (in_slice (Z.of_nat (List.length line))
                      (fst x_range) (snd x_range + 1) x).
    + now rewrite nth_error_map, Hx.
  - rewrite nth_error_map, Hy. cbn [option_map].
    now rewrite nth_error_map, Hx.
Qed.

End RectangularMask.

(** For ranges whose bounds are not negative, the mask has the geometry of
    the image, and each of its voxels is 1 when the three indices lie
    between the bounds of their ranges, both bounds included, and 0
    otherwise, whatever the intensities of the image. *)
Theorem rectangular_mask_is_the_box
  {Info : Type} (image_sitk : MyImageProcessingFunctions.sitk_volume Info)
  (x_range y_range z_range : Z * Z) (z y x : nat) (u : Q) :
  (0 <= fst x_range)%Z -> (0 <= snd x_range)%Z ->
  (0 <= fst y_range)%Z -> (0 <= snd y_range)%Z ->
  (0 <= fst z_range)%Z -> (0 <= snd z_range)%Z ->
  MyImageProcessingFunctions.voxel
    (MyImageProcessingFunctions.nda image_sitk) z y x = Some u ->
  let mask :=
    MyImageProcessingFunctions.get_rectangular_mask image_sitk
      x_range y_range z_range in
  MyImageProcessingFunctions.information mask =
    MyImageProcessingFunctions.information image_sitk /\
  MyImageProcessingFunctions.voxel
    (MyImageProcessingFunctions.nda mask) z y x
  = Some
      (if ((fst z_range <=? Z.of_nat z) && (Z.of_nat z <=? snd z_range)
           && ((fst y_range <=? Z.of_nat y) && (Z.of_nat y <=? snd y_range))
           && ((fst x_range <=? Z.of_nat x) && (Z.of_nat x <=? snd x_range)))%Z
       then 1 else 0).
Proof.
  intros Hx0 Hx1 Hy0 Hy1 Hz0 Hz1 Hu mask. split; [reflexivity|].
  unfold MyImageProcessingFunctions.voxel in Hu.
  destruct (nth_error (MyImageProcessingFunctions.nda image_sitk) z)
    as [plane|] eqn:Hz; [|discriminate].
  destruct (nth_error plane y) as [line|] eqn:Hy; [|discriminate].
  unfold mask.
  rewrite (@rectangular_mask_voxel _ image_sitk x_range y_range z_range
             z y x plane line u Hz Hy Hu).
  rewrite !in_slice_inclusive; try assumption.
  - reflexivity.
  - apply Nat2Z.inj_lt. apply nth_error_Some. congruence.
  - apply Nat2Z.inj_lt. apply nth_error_Some. congruence.
  - apply Nat2Z.inj_lt. apply nth_error_Some. congruence.
Qed.

(** A range that ends at -1 selects nothing: the upper bound is included by
    adding one to it, which makes the slice stop at 0, so every voxel of
    the mask is 0. *)
Theorem rectangular_mask_range_ending_at_minus_one
  {Info : Type} (image_sitk : MyImageProcessingFunctions.sitk_volume Info)
  (x_range y_range z_range : Z * Z) (z y x : nat) (u : Q) :
  snd x_range = (-1)%Z \/ snd y_range = (-1)%Z \/ snd z_range = (-1)%Z ->
  MyImageProcessingFunctions.voxel
    (MyImageProcessingFunctions.nda image_sitk) z y x = Some u ->
  MyImageProcessingFunctions.voxel
    (MyImageProcessingFunctions.nda
       (MyImageProcessingFunctions.get_rectangular_mask image_sitk
          x_range y_range z_range)) z y x = Some 0.
Proof.
  intros Hend Hu.
  unfold MyImageProcessingFunctions.voxel in Hu.
  destruct (nth_error (MyImageProcessingFunctions.nda image_sitk) z)
    as [plane|] eqn:Hz; [|discriminate].
  destruct (nth_error plane y) as [line|] eqn:Hy; [|discriminate].
  rewrite (@rectangular_mask_voxel _ image_sitk x_range y_range z_range
             z y x plane line u Hz Hy Hu).
  destruct Hend as [H|[H|H]]; rewrite H; cbn [Z.add Z.opp Pos.sub];
    change (-1 + 1)%Z with 0%Z;
    rewrite in_slice_stop_zero by lia;
    rewrite ?andb_false_r; reflexivity.
Qed.

(* ================================================================== *)
(** * The FLIRT registration class *)
(* ================================================================== *)

(** [set_registration_type] accepts "Rigid" and "Affine" and nothing else:
    an accepted type is what [get_registration_type] returns afterwards,
    with the options and the images untouched; any other type raises
    [ValueError] and leaves the object as it was. *)
Theorem flirt_set_registration_type_validates
  {sitk_image transform_sitk : Type}
  (s : FLIRT.Self sitk_image transform_sitk) (registration_type : string) :
  (registration_type = "Rigid"%string \/ registration_type = "Affine"%string ->
   snd (FLIRT.set_registration_type s registration_type) = Ok tt /\
   FLIRT.get_registration_type
     (fst (FLIRT.set_registration_type s registration_type))
     = registration_type /\
   FLIRT.get_options (fst (FLIRT.set_registration_type s registration_type))
     = FLIRT.get_options s /\
   FLIRT._fixed (fst (FLIRT.set_registration_type s registration_type))
     = FLIRT._fixed s /\
   FLIRT._moving (fst (FLIRT.set_registration_type s registration_type))
     = FLIRT._moving s) /\
  (registration_type <> "Rigid"%string ->
   registration_type <> "Affine"%string ->
   FLIRT.set_registration_type s registration_type
     = (s, Err (Py.Raise "ValueError"))).
Proof.
  unfold FLIRT.set_registration_type, FLIRT.str_in. cbn [existsb].
  split.
  - intros [-> | ->]; cbn; repeat split.
  - intros Hr Ha.
    apply String.eqb_neq in Hr. apply String.eqb_neq in Ha.
    now rewrite Hr, Ha.
Qed.

(** [_run_registration] needs both images: when [fixed] or [moving] is
    [None] it raises [AttributeError] and leaves the object as it was, no
    tool having been constructed; when both are set it returns, having
    recorded the tool it constructed and the transformation the tool
    found. *)
Theorem flirt_run_requires_images
  {sitk_image transform_sitk : Type}
  (run_tool : FLIRT.FLIRT_tool sitk_image -> transform_sitk)
  (s : FLIRT.Self sitk_image transform_sitk) :
  (FLIRT._fixed s = None \/ FLIRT._moving s = None ->
   FLIRT._run_registration run_tool s = (s, Err (Py.Raise "AttributeError")))
  /\
  (forall f m,
      FLIRT._fixed s = Some f -> FLIRT._moving s = Some m ->
      exists tool,
        FLIRT.make_tool s = Ok tool /\
        FLIRT.fixed_sitk tool = FLIRT.sitk f /\
        FLIRT.moving_sitk tool = FLIRT.sitk m /\
        snd (FLIRT._run_registration run_tool s) = Ok tt /\
        FLIRT._registration_method (fst (FLIRT._run_registration run_tool s))
          = Some tool /\
        FLIRT._registration_transform_sitk
          (fst (FLIRT._run_registration run_tool s))
          = Some (run_tool tool)).
Proof.
  split.
  - intros Hnone. unfold FLIRT._run_registration, FLIRT.make_tool.
    destruct (FLIRT._fixed s) as [f|], (FLIRT._moving s) as [m|];
      destruct (FLIRT._use_fixed_mask s), (FLIRT._use_moving_mask s);
      cbn; try reflexivity; destruct Hnone; discriminate.
  - intros f m Hf Hm. unfold FLIRT._run_registration, FLIRT.make_tool.
    rewrite Hf, Hm.
    destruct (FLIRT._use_fixed_mask s), (FLIRT._use_moving_mask s); cbn;
      eexists; repeat split.
Qed.

(** The option string of [_run_registration] is built in a local variable:
    a run leaves [_options], the registration type and the images as they
    were, so that running again constructs the same tool and ends in the
    same state. *)
Theorem flirt_run_repeatable
  {sitk_image transform_sitk : Type}
  (run_tool : FLIRT.FLIRT_tool sitk_image -> transform_sitk)
  (s s1 : FLIRT.Self sitk_image transform_sitk) :
  FLIRT._run_registration run_tool s = (s1, Ok tt) ->
  FLIRT._options s1 = FLIRT._options s /\
  FLIRT.make_tool s1 = FLIRT.make_tool s /\
  FLIRT._run_registration run_tool s1 = (s1, Ok tt).
Proof.
  unfold FLIRT._run_registration.
  destruct (FLIRT.make_tool s) as [tool|e] eqn:Htool; [|discriminate].
  intros [= <-].
  assert (Hsame : FLIRT.make_tool
                    (FLIRT.mk_Self (FLIRT._fixed s) (FLIRT._moving s)
                       (FLIRT._use_fixed_mask s) (FLIRT._use_moving_mask s)
                       (FLIRT._use_verbose s) (FLIRT._registration_type s)
                       (FLIRT._options s) (Some tool)
                       (Some (run_tool tool)))
                  = FLIRT.make_tool s) by reflexivity.
  split; [reflexivity|]. split; [now rewrite Hsame|].
  rewrite Hsame, Htool. reflexivity.
Qed.

(** Options set with [set_options] and a type accepted by
    [set_registration_type] reach the tool: its option string is the
    configured one followed by the degrees of freedom of the type (6 for
    "Rigid", 12 for "Affine") and, if the object is verbose, by the verbose
    flag; the masks are handed over exactly when their use is switched on. *)
Theorem flirt_run_passes_configuration
  {sitk_image transform_sitk : Type}
  (s s2 : FLIRT.Self sitk_image transform_sitk)
  (options registration_type : string) (f m : FLIRT.Stack sitk_image) :
  FLIRT._fixed s = Some f -> FLIRT._moving s = Some m ->
  FLIRT.set_registration_type (FLIRT.set_options s options)
    registration_type = (s2, Ok tt) ->
  exists tool,
    FLIRT.make_tool s2 = Ok tool /\
    FLIRT.options tool =
      (let dof := if String.eqb registration_type "Rigid"
                  then " -dof 6"%string else " -dof 12"%string in
       if FLIRT._use_verbose s
       then ((options ++ dof) ++ " -verbose 1")%string
       else (options ++ dof)%string) /\
    FLIRT.fixed_sitk_mask tool =
      (if FLIRT._use_fixed_mask s then Some (FLIRT.sitk_mask f) else None) /\
    FLIRT.moving_sitk_mask tool =
      (if FLIRT._use_moving_mask s then Some (FLIRT.sitk_mask m) else None).
Proof.
  intros Hf Hm Hset.
  unfold FLIRT.set_registration_type, FLIRT.str_in in Hset.
  cbn [existsb] in Hset.
  destruct (String.eqb_spec registration_type "Rigid") as [->|Hr].
  - cbn in Hset. injection Hset as <-.
    unfold FLIRT.make_tool, FLIRT.tool_options. cbn. rewrite Hf, Hm.
    destruct (FLIRT._use_fixed_mask s), (FLIRT._use_moving_mask s),
      (FLIRT._use_verbose s); cbn; eexists; repeat split.
  - destruct (String.eqb_spec registration_type "Affine") as [->|Ha].
    + cbn in Hset. injection Hset as <-.
      unfold FLIRT.make_tool, FLIRT.tool_options. cbn. rewrite Hf, Hm.
      destruct (FLIRT._use_fixed_mask s), (FLIRT._use_moving_mask s),
        (FLIRT._use_verbose s); cbn; eexists; repeat split.
    + cbn in Hset. discriminate.
Qed.

(* ================================================================== *)
(** * The N4 bias field correction class *)
(* ================================================================== *)

Lemma prefix_append (a b : string) : String.prefix a (a ++ b) = true.
Proof.
  induction a as [|c a IH]; simpl; [now destruct b|].
  destruct (ascii_dec c c); [exact IH | congruence].
Qed.

(** A run on a stack touches files below [dir_tmp] only (their paths start
    with it), executes one command, the one assembled from the attributes,
    and reads the result from a file that is none of the files it has
    written. *)
Theorem n4_run_stays_in_tmp
  {sitk_image : Type} (dir_build_cpp : string)
  (ReadImage : string -> sitk_image)
  (Resample : sitk_image -> sitk_image -> sitk_image)
  (from_sitk_image :
     sitk_image -> string -> sitk_image -> N4BiasFieldCorrection.Stack sitk_image)
  (s : N4BiasFieldCorrection.Self sitk_image)
  (stack : N4BiasFieldCorrection.Stack sitk_image) :
  N4BiasFieldCorrection._stack s = Some stack ->
  let t := fst (fst (N4BiasFieldCorrection.run_bias_field_correction
                       dir_build_cpp ReadImage Resample from_sitk_image s)) in
  let result_file :=
    ((N4BiasFieldCorrection._dir_tmp s
      ++ N4BiasFieldCorrection.get_filename stack)
     ++ "_corrected.nii.gz")%string in
  Forall (fun path =>
            String.prefix (N4BiasFieldCorrection._dir_tmp s) path = true)
    (N4BiasFieldCorrection.paths t) /\
  N4BiasFieldCorrection.commands t =
    [N4BiasFieldCorrection.command dir_build_cpp s
       (N4BiasFieldCorrection.get_filename stack)] /\
  exists written,
    N4BiasFieldCorrection.paths t = (written ++ [result_file])%list /\
    ~ In result_file written /\
    List.length written =
      (if N4BiasFieldCorrection._use_mask s then 2%nat else 1%nat).
Proof.
  intros Hstack t result_file. unfold t, result_file.
  unfold N4BiasFieldCorrection.run_bias_field_correction. rewrite Hstack.
  set (base := (N4BiasFieldCorrection._dir_tmp s
                ++ N4BiasFieldCorrection.get_filename stack)%string).
  assert (Hp : forall suffix,
             String.prefix (N4BiasFieldCorrection._dir_tmp s)
               (base ++ suffix)%string = true).
  { intros suffix. unfold base. rewrite append_assoc_str.
    apply prefix_append. }
  assert (Hne1 : (base ++ "_corrected.nii.gz")%string
                 <> (base ++ ".nii.gz")%string).
  { intros H. apply append_cancel_head in H. discriminate. }
  assert (Hne2 : (base ++ "_corrected.nii.gz")%string
                 <> (base ++ "_mask.nii.gz")%string).
  { intros H. apply append_cancel_head in H. discriminate. }
  destruct (N4BiasFieldCorrection._use_mask s); cbn.
  - split; [repeat constructor; apply Hp|]. split; [reflexivity|].
    exists [(base ++ ".nii.gz")%string; (base ++ "_mask.nii.gz")%string].
    split; [reflexivity|]. split; [|reflexivity].
    intros [H|[H|[]]]; congruence.
  - split; [repeat constructor; apply Hp|]. split; [reflexivity|].
    exists [(base ++ ".nii.gz")%string].
    split; [reflexivity|]. split; [|reflexivity].
    intros [H|[]]; congruence.
Qed.

(* ================================================================== *)
(** * More about the ADMM solver *)
(* ================================================================== *)

Lemma contains_replaced (o n : ascii) (s : string) :
  o <> n -> Py.contains o (Py.replace o n s) = false.
Proof.
  intros Hne. induction s as [|c s IH]; simpl; [reflexivity|].
  rewrite IH, orb_false_r.
  destruct (Ascii.eqb_spec c o) as [->|Hc].
  - apply Ascii.eqb_neq. congruence.
  - now apply Ascii.eqb_neq.
Qed.

(** The setting specific filename contains no dot, whatever the prefix, the
    minimizer name and the printed numbers. *)
Theorem filename_has_no_dot
  {D : PyData} (s : ADMMSolver.Self) (prefix : string) :
  Py.contains "." (ADMMSolver.get_setting_specific_filename s prefix) = false.
Proof.
  unfold ADMMSolver.get_setting_specific_filename.
  apply contains_replaced. discriminate.
Qed.

(** A run returns exactly when the initial iterate is not empty and has as
    many samples as the stored shape of the reconstruction says; otherwise
    it raises [ValueError] without having constructed or run an inner
    solver. *)
Theorem run_returns_or_raises_early
  {D : PyData} {C : ADMMSolver.Collaborators} (w : ADMMSolver.World) :
  let x0 := ADMMSolver.get_x0 w in
  let fits :=
    List.length x0 =
    fold_right Nat.mul 1%nat
      (ADMMSolver._reconstruction_shape (ADMMSolver.self w)) in
  (x0 <> [] -> fits ->
   exists w', ADMMSolver.outcome (ADMMSolver._run_reconstruction w) = Ok w')
  /\
  (x0 = [] \/ ~ fits ->
   ADMMSolver.outcome (ADMMSolver._run_reconstruction w)
     = Err (Py.Raise "ValueError") /\
   ADMMSolver.solvers_constructed
     (ADMMSolver.trace (ADMMSolver._run_reconstruction w)) = [] /\
   ADMMSolver.solvers_run
     (ADMMSolver.trace (ADMMSolver._run_reconstruction w)) = []).
Proof.
  intros x0 fits. unfold fits, x0. split.
  - intros Hne Hfit.
    destruct (ADMMSolver.np_max (ADMMSolver.get_x0 w)) as [xs|e] eqn:Hmax.
    + destruct (ADMMSolver.reshape (ADMMSolver.get_x0 w)
                  (ADMMSolver._reconstruction_shape (ADMMSolver.self w)))
        as [X0|e] eqn:Hre.
      * rewrite (run_returns w Hmax Hre). eexists. reflexivity.
      * unfold ADMMSolver.reshape in Hre.
        apply Nat.eqb_eq in Hfit. rewrite Hfit in Hre. discriminate.
    + destruct (ADMMSolver.get_x0 w); [congruence | discriminate].
  - intros Hbad.
    destruct (ADMMSolver.np_max (ADMMSolver.get_x0 w)) as [xs|e] eqn:Hmax.
    + destruct (ADMMSolver.reshape (ADMMSolver.get_x0 w)
                  (ADMMSolver._reconstruction_shape (ADMMSolver.self w)))
        as [X0|e] eqn:Hre.
      * exfalso. destruct Hbad as [Hempty|Hnot].
        -- rewrite Hempty in Hmax. discriminate.
        -- apply Hnot. unfold ADMMSolver.reshape in Hre.
           destruct (Nat.eqb_spec (List.length (ADMMSolver.get_x0 w))
                       (fold_right Nat.mul 1%nat
                          (ADMMSolver._reconstruction_shape
                             (ADMMSolver.self w))));
             [assumption | discriminate].
      * rewrite (run_reshape_raises w Hmax Hre).
        apply reshape_raises in Hre. subst e. now repeat split.
    + rewrite (run_max_raises w Hmax).
      apply np_max_raises in Hmax. subst e. now repeat split.
Qed.

(** A run that returns changes one attribute of the solver object, the
    computational time, which it sets to the time of the inner solver it
    has run; alpha, rho, the iteration caps, the minimizer, the stacks and
    every other setting are as before. *)
Theorem run_changes_only_computational_time
  {D : PyData} {C : ADMMSolver.Collaborators} (w w' : ADMMSolver.World) :
  ADMMSolver.outcome (ADMMSolver._run_reconstruction w) = Ok w' ->
  exists solver,
    ADMMSolver.solvers_run
      (ADMMSolver.trace (ADMMSolver._run_reconstruction w)) = [solver] /\
    ADMMSolver.self w' =
      ADMMSolver.assign_computational_time (ADMMSolver.self w)
        (snd (ADMMSolver.run_solver solver)).
Proof.
  intros H.
  destruct (returns_constructs_one _ H) as (solver & _ & Hr & ->).
  exists solver. split; [exact Hr|].
  now destruct (reconstruction_world_after w solver) as [Hself _].
Qed.

(** [set_rho] and [set_iterations] commute, are read back by [get_rho] and
    [get_iterations], and reach the inner solver: every solver a run
    constructs afterwards has the rho and the number of iterations that
    were set, the alpha, the iteration cap and the verbosity the object had
    before, and dimension 3. *)
Theorem setters_reach_inner_solver
  {D : PyData} {C : ADMMSolver.Collaborators} (w : ADMMSolver.World)
  (rho : pyfloat) (iterations : Z) :
  let w1 := ADMMSolver.set_rho (ADMMSolver.set_iterations w iterations) rho in
  w1 = ADMMSolver.set_iterations (ADMMSolver.set_rho w rho) iterations /\
  ADMMSolver.get_rho w1 = rho /\
  ADMMSolver.get_iterations w1 = iterations /\
  Forall
    (fun solver =>
       ADMMSolver.admm.rho solver = rho /\
       ADMMSolver.admm.iterations solver = iterations /\
       ADMMSolver.admm.alpha solver = ADMMSolver._alpha (ADMMSolver.self w) /\
       ADMMSolver.admm.iter_max solver =
         ADMMSolver._iter_max (ADMMSolver.self w) /\
       ADMMSolver.admm.verbose solver =
         ADMMSolver._verbose (ADMMSolver.self w) /\
       ADMMSolver.admm.dimension solver = 3%Z)
    (ADMMSolver.solvers_constructed
       (ADMMSolver.trace (ADMMSolver._run_reconstruction w1))).
Proof.
  intros w1. split; [reflexivity|]. split; [reflexivity|].
  split; [reflexivity|].
  destruct (solvers_constructed_inv w1)
    as [[-> _]|(xs & X0 & _ & _ & -> & _)].
  - constructor.
  - constructor; [|constructor]. now repeat split.
Qed.


(* ================================================================== *)
(** * The properties on the small instance *)
(* ================================================================== *)

(** A quarter turn of a 2x2 image is defined. *)
Lemma resampling_default_returns_witness :
  exists warped,
    MyImageProcessingFunctions.resampling_default Instance.reference0
      Instance.floating0 Instance.quarter_turn = Ok warped /\
    MyImageProcessingFunctions.shape0 warped = 2%nat.
Proof.
  destruct (@resampling_default_returns Instance.reference0
              Instance.floating0 Instance.quarter_turn)
    as (warped & Hw & H0 & _).
  - reflexivity.
  - cbn. lia.
  - cbn. lia.
  - exists warped. split; [exact Hw | exact H0].
Defined.

(** Resampling an image without pixels onto a 2x2 grid. *)
Lemma resampling_default_empty_floating_witness :
  MyImageProcessingFunctions.resampling_default Instance.reference0
    Instance.empty_image Instance.shift_column
  = Err (Py.Raise "IndexError").
Proof.
  apply (@resampling_default_empty_floating Instance.reference0
           Instance.empty_image Instance.shift_column).
  - reflexivity.
  - cbn. lia.
  - cbn. lia.
Defined.


Lemma resampling_default_identity_witness :
  MyImageProcessingFunctions.resampling_default Instance.reference0
    Instance.floating0 MyImageProcessingFunctions.identity3
  = Ok Instance.floating0.
Proof.
  apply (@resampling_default_identity Instance.reference0
           Instance.floating0); reflexivity.
Defined.




(** The box x in 1..2, y = 0, z = 0 of a 1x2x3 volume. *)
Lemma rectangular_mask_is_the_box_witness :
  MyImageProcessingFunctions.voxel
    (MyImageProcessingFunctions.nda
       (MyImageProcessingFunctions.get_rectangular_mask Instance.volume0
          (1, 2)%Z (0, 0)%Z (0, 0)%Z)) 0 0 1 = Some 1 /\
  MyImageProcessingFunctions.voxel
    (MyImageProcessingFunctions.nda
       (MyImageProcessingFunctions.get_rectangular_mask Instance.volume0
          (1, 2)%Z (0, 0)%Z (0, 0)%Z)) 0 1 1 = Some 0.
Proof.
  split.
  - apply (proj2 (@rectangular_mask_is_the_box string Instance.volume0
                    (1, 2)%Z (0, 0)%Z (0, 0)%Z 0%nat 0%nat 1%nat 6
                    ltac:(cbn; lia) ltac:(cbn; lia) ltac:(cbn; lia)
                    ltac:(cbn; lia) ltac:(cbn; lia) ltac:(cbn; lia)
                    eq_refl)).
  - apply (proj2 (@rectangular_mask_is_the_box string Instance.volume0
                    (1, 2)%Z (0, 0)%Z (0, 0)%Z 0%nat 1%nat 1%nat 9
                    ltac:(cbn; lia) ltac:(cbn; lia) ltac:(cbn; lia)
                    ltac:(cbn; lia) ltac:(cbn; lia) ltac:(cbn; lia)
                    eq_refl)).
Defined.

(** The range (0, -1) along x, meant or not as "up to the last voxel". *)
Lemma rectangular_mask_range_ending_at_minus_one_witness :
  MyImageProcessingFunctions.voxel
    (MyImageProcessingFunctions.nda
       (MyImageProcessingFunctions.get_rectangular_mask Instance.volume0
          (0, -1)%Z (0, 1)%Z (0, 0)%Z)) 0 0 0 = Some 0.
Proof.
  apply (@rectangular_mask_range_ending_at_minus_one string Instance.volume0
           (0, -1)%Z (0, 1)%Z (0, 0)%Z 0%nat 0%nat 0%nat 5).
  - left. reflexivity.
  - reflexivity.
Defined.

Lemma flirt_set_registration_type_validates_witness :
  snd (FLIRT.set_registration_type Instance.flirt0 "Affine") = Ok tt /\
  FLIRT.set_registration_type Instance.flirt0 "Elastic"
    = (Instance.flirt0, Err (Py.Raise "ValueError")).
Proof.
  destruct (@flirt_set_registration_type_validates nat nat Instance.flirt0
              "Affine") as [Hok _].
  destruct (@flirt_set_registration_type_validates nat nat Instance.flirt0
              "Elastic") as [_ Hbad].
  split.
  - apply Hok. right. reflexivity.
  - apply Hbad; discriminate.
Defined.

Lemma flirt_run_requires_images_witness :
  FLIRT._run_registration Instance.flirt_tool Instance.flirt_no_moving
    = (Instance.flirt_no_moving, Err (Py.Raise "AttributeError")) /\
  snd (FLIRT._run_registration Instance.flirt_tool Instance.flirt0) = Ok tt.
Proof.
  split.
  - apply (proj1 (@flirt_run_requires_images nat nat Instance.flirt_tool
                    Instance.flirt_no_moving)).
    right. reflexivity.
  - destruct (proj2 (@flirt_run_requires_images nat nat Instance.flirt_tool
                       Instance.flirt0) _ _ eq_refl eq_refl)
      as (tool & _ & _ & _ & Hok & _).
    exact Hok.
Defined.

Lemma flirt_run_repeatable_witness :
  FLIRT._options
    (fst (FLIRT._run_registration Instance.flirt_tool Instance.flirt0))
    = "-cost normcorr"%string /\
  FLIRT._run_registration Instance.flirt_tool
    (fst (FLIRT._run_registration Instance.flirt_tool Instance.flirt0))
  = (fst (FLIRT._run_registration Instance.flirt_tool Instance.flirt0),
     Ok tt).
Proof.
  destruct (@flirt_run_repeatable nat nat Instance.flirt_tool Instance.flirt0
              (fst (FLIRT._run_registration Instance.flirt_tool
                      Instance.flirt0)) eq_refl)
    as (Hopt & _ & Hrun).
  split; [exact Hopt | exact Hrun].
Defined.

Lemma flirt_run_passes_configuration_witness :
  exists tool,
    FLIRT.make_tool
      (fst (FLIRT.set_registration_type
              (FLIRT.set_options Instance.flirt0 "-nosearch") "Affine"))
      = Ok tool /\
    FLIRT.options tool = "-nosearch -dof 12 -verbose 1"%string.
Proof.
  destruct (@flirt_run_passes_configuration nat nat Instance.flirt0
              (fst (FLIRT.set_registration_type
                      (FLIRT.set_options Instance.flirt0 "-nosearch")
                      "Affine"))
              "-nosearch" "Affine" _ _ eq_refl eq_refl eq_refl)
    as (tool & Htool & Hopt & _).
  exists tool. split; [exact Htool | exact Hopt].
Defined.

Lemma n4_run_stays_in_tmp_witness :
  N4BiasFieldCorrection.commands
    (fst (fst (N4BiasFieldCorrection.run_bias_field_correction
                 "/build" (fun _ => 7%nat) (fun mask _ => mask)
                 (fun image name mask =>
                    N4BiasFieldCorrection.mk_Stack name image mask)
                 Instance.n4_self)))
  = [("/build/bin/runN4BiasFieldCorrectionImageFilter "
      ++ "--f /tmp/N4BiasFieldCorrection/stack1 "
      ++ "--fmask /tmp/N4BiasFieldCorrection/stack1_mask "
      ++ "--tout /tmp/N4BiasFieldCorrection/ --m stack1")%string].
Proof.
  destruct (@n4_run_stays_in_tmp nat "/build" (fun _ => 7%nat)
              (fun mask _ => mask)
              (fun image name mask =>
                 N4BiasFieldCorrection.mk_Stack name image mask)
              Instance.n4_self _ eq_refl) as (_ & Hcmd & _).
  exact Hcmd.
Defined.

Lemma run_returns_or_raises_early_witness :
  exists w',
    ADMMSolver.outcome
      (@ADMMSolver._run_reconstruction Instance.data Instance.collaborators
         Instance.world0) = Ok w'.
Proof.
  apply (proj1 (@run_returns_or_raises_early Instance.data
                  Instance.collaborators Instance.world0)).
  - discriminate.
  - reflexivity.
Defined.

Lemma run_changes_only_computational_time_witness :
  exists w' : @ADMMSolver.World Instance.data,
    ADMMSolver.outcome
      (@ADMMSolver._run_reconstruction Instance.data Instance.collaborators
         Instance.world0) = Ok w' /\
    @ADMMSolver._alpha Instance.data (ADMMSolver.self w') = 2%Z /\
    @ADMMSolver._computational_time Instance.data (ADMMSolver.self w')
      = Some 7%Z.
Proof.
  eexists.
  destruct (@run_changes_only_computational_time Instance.data
              Instance.collaborators Instance.world0 _ eq_refl)
    as (solver & Hr & Hself).
  split; [reflexivity|]. rewrite Hself. split; reflexivity.
Defined.


Lemma dot_product_double (x z : list Z) :
  Instance.dot_product (map (fun v => (2 * v)%Z) x) z
  = Instance.dot_product x (map (fun v => (2 * v)%Z) z).
Proof.
  unfold Instance.dot_product. revert z.
  induction x as [|a x IH]; intros [|b z];
    cbn [map combine fold_right fst snd]; try reflexivity.
  rewrite IH. ring.
Qed.

(** Doubling every sample is adjoint to itself for the sum of products, and
    so are the wrappers of the solver built from it. *)
Lemma B_adjoint_of_grad_adjoint_witness :
  let solver :=
    @ADMMSolver.make_solver Instance.data Instance.world0
      (fun x => x) (fun x => x) [] [1; 2]%Z 2%Z
      Instance.double Instance.double [2%nat] [2%nat] in
  ADMMSolver.admm.B solver [1; 2]%Z = Ok [2; 4]%Z /\
  ADMMSolver.admm.B_adj solver [3; 4]%Z = Ok [6; 8]%Z /\
  Instance.dot_product [2; 4]%Z [3; 4]%Z
  = Instance.dot_product [1; 2]%Z [6; 8]%Z.
Proof.
  intros solver. split; [reflexivity|]. split; [reflexivity|].
  apply (@B_adjoint_of_grad_adjoint Instance.data Z
           Instance.dot_product Instance.dot_product Instance.world0
           (fun x => x) (fun x => x) [] [1; 2]%Z 2%Z
           Instance.double Instance.double [2%nat] [2%nat]
           ltac:(intros [sx dx] [sz dz] _ _; exact (dot_product_double dx dz))
           [1; 2]%Z [3; 4]%Z [2; 4]%Z [6; 8]%Z);
    reflexivity.
Defined.

(** The pixel (0, 1) of the image shifted by one column, with [order=1]
    and the padding value 9. *)
Lemma resampling_bilinear_pads_witness :
  exists warped,
    MyImageProcessingFunctions.resampling Instance.reference0
      Instance.floating0 Instance.shift_column 1%Z 9 = Ok warped /\
    nth_error (MyImageProcessingFunctions.ravel warped) 1 = Some 9.
Proof.
  eexists. split.
  - reflexivity.
  - apply (@resampling_bilinear_pads Instance.reference0 Instance.floating0
             Instance.shift_column 9 _ 0%nat 1%nat eq_refl).
    + cbn. lia.
    + cbn. lia.
    + reflexivity.
Defined.


(** Every pixel of the image shifted by one column is one of 1, 2, 3, 4. *)
Lemma resampling_default_copies_pixels_witness :
  Forall (fun v => In v [1; 2; 3; 4]%Q) [2; 1; 4; 3]%Q.
Proof.
  apply (@resampling_default_copies_pixels
           Instance.reference0 Instance.floating0 Instance.shift_column
           (MyImageProcessingFunctions.mk_ndarray2 2 2 [2; 1; 4; 3]%Q)
           eq_refl).
Defined.
